(** * vkconfig_core/doc.cpp: the HTML documentation generator of a layer

    A shallow embedding of [GetProcessedDefaultValue], [GetProcessedValue],
    [BuildPlatformsHTML], [WriteSettingsOverview], [GetLayerSettingsDocURL],
    [WriteSettingsDetails] and of the text built by [ExportHtmlDoc].

    Conventions of the embedding:
    - [std::string] is [string]; strings hold no NUL, so [c_str()] is the
      identity and [format] with [%s] is concatenation;
    - [text += ...] is explicit state passing on the accumulated text;
    - a class hierarchy discriminated by its [type] tag is a tagged union,
      the [static_cast] of a [switch] case being the match on its constructor;
    - dereferencing the result of [FindSettingMeta] is defined only when the
      lookup returns a meta (of the class it is cast to): preset rendering
      returns [option];
    - a [float] is a machine float; nothing here depends on its arithmetic. *)

From Stdlib Require Import ZArith List Bool Ascii String Lia.
From Stdlib Require Import Numbers.DecimalString.
From Stdlib Require Import Floats.PrimFloat.
Import ListNotations.

Open Scope list_scope.
Open Scope string_scope.

(** ** Characters that a Rocq literal cannot hold directly *)

Definition dq : string := String "034"%char "".
Definition nl : string := String "010"%char "".
Definition tab : string := String "009"%char "".

(** [format("%d", v)] *)
Definition format_d (v : Z) : string := NilZero.string_of_int (Z.to_int v).

(** ** Data model *)

Inductive SettingType : Type :=
  | SETTING_STRING
  | SETTING_INT
  | SETTING_FLOAT
  | SETTING_GROUP
  | SETTING_SAVE_FILE
  | SETTING_LOAD_FILE
  | SETTING_SAVE_FOLDER
  | SETTING_BOOL
  | SETTING_BOOL_NUMERIC_DEPRECATED
  | SETTING_ENUM
  | SETTING_FLAGS
  | SETTING_FRAMES
  | SETTING_LIST.

Inductive SettingView : Type :=
  | SETTING_VIEW_STANDARD
  | SETTING_VIEW_ADVANCED
  | SETTING_VIEW_HIDDEN.

Inductive StatusType : Type :=
  | STATUS_STABLE
  | STATUS_BETA
  | STATUS_ALPHA
  | STATUS_DEPRECATED.

Definition SettingType_eqb (a b : SettingType) : bool :=
  match a, b with
  | SETTING_STRING, SETTING_STRING | SETTING_INT, SETTING_INT
  | SETTING_FLOAT, SETTING_FLOAT | SETTING_GROUP, SETTING_GROUP
  | SETTING_SAVE_FILE, SETTING_SAVE_FILE | SETTING_LOAD_FILE, SETTING_LOAD_FILE
  | SETTING_SAVE_FOLDER, SETTING_SAVE_FOLDER | SETTING_BOOL, SETTING_BOOL
  | SETTING_BOOL_NUMERIC_DEPRECATED, SETTING_BOOL_NUMERIC_DEPRECATED
  | SETTING_ENUM, SETTING_ENUM | SETTING_FLAGS, SETTING_FLAGS
  | SETTING_FRAMES, SETTING_FRAMES | SETTING_LIST, SETTING_LIST => true
  | _, _ => false
  end.

Definition SettingView_eqb (a b : SettingView) : bool :=
  match a, b with
  | SETTING_VIEW_STANDARD, SETTING_VIEW_STANDARD
  | SETTING_VIEW_ADVANCED, SETTING_VIEW_ADVANCED
  | SETTING_VIEW_HIDDEN, SETTING_VIEW_HIDDEN => true
  | _, _ => false
  end.

Definition StatusType_eqb (a b : StatusType) : bool :=
  match a, b with
  | STATUS_STABLE, STATUS_STABLE | STATUS_BETA, STATUS_BETA
  | STATUS_ALPHA, STATUS_ALPHA | STATUS_DEPRECATED, STATUS_DEPRECATED => true
  | _, _ => false
  end.

(** An entry of a LIST value: [key], [number], [enabled]. *)
Module Entry.
Record t : Type := Make { key : string; number : Z; enabled : bool }.
End Entry.

(** [SettingEnumValue]: the members [ExportHtmlDoc] reads. *)
Module EnumValue.
Record t : Type := Make
  { key : string; label : string; description : string; view : SettingView }.
End EnumValue.

(** Modelled from the spec: the declaration of [SettingMetaFloat] is not part
    of the sources at hand.  [default_value] is the member the formatter
    reads; the range and the format fields are what the spec calls the
    validity check (range) and the per-setting format spec, and are only
    consumed by [IsValid] and [GetFloatFormat]. *)
Module MetaFloat.
Record t : Type := Make
  { default_value : float; min_value : float; max_value : float;
    precision : Z; width : Z }.
End MetaFloat.

(** The type-specific part of a setting meta: one constructor per value of
    the [type] tag, carrying the members of the class that the [switch] of
    [GetProcessedDefaultValue] casts to. *)
Inductive MetaValue : Type :=
  | MetaGroup
  | MetaLoadFile (default_value : string)
  | MetaSaveFile (default_value : string)
  | MetaSaveFolder (default_value : string)
  | MetaString (default_value : string)
  | MetaFrames (default_value : string)
  | MetaInt (default_value : Z)
  | MetaFloat (meta_float : MetaFloat.t)
  | MetaBoolNumeric (default_value : bool)
  | MetaBool (default_value : bool)
  | MetaList (default_value : list Entry.t)
  | MetaEnum (enum_values : list EnumValue.t) (default_value : string)
  | MetaFlags (enum_values : list EnumValue.t) (default_value : list string).

(** [SettingMeta] owns its children, a [SettingMetaSet]; the set is walked
    front to back by every loop of the generator. *)
Inductive SettingMeta : Type :=
  | MakeSettingMeta (key label description : string) (value : MetaValue)
      (view : SettingView) (status : StatusType) (platform_flags : Z)
      (env : string) (children : SettingMetaSet)
with SettingMetaSet : Type :=
  | SetNil
  | SetCons (first : SettingMeta) (rest : SettingMetaSet).

Scheme SettingMeta_set_ind := Induction for SettingMeta Sort Prop
  with SettingMetaSet_meta_ind := Induction for SettingMetaSet Sort Prop.

Module Meta.
Definition key (s : SettingMeta) : string :=
  let 'MakeSettingMeta k _ _ _ _ _ _ _ _ := s in k.
Definition label (s : SettingMeta) : string :=
  let 'MakeSettingMeta _ l _ _ _ _ _ _ _ := s in l.
Definition description (s : SettingMeta) : string :=
  let 'MakeSettingMeta _ _ d _ _ _ _ _ _ := s in d.
Definition value (s : SettingMeta) : MetaValue :=
  let 'MakeSettingMeta _ _ _ v _ _ _ _ _ := s in v.
Definition view (s : SettingMeta) : SettingView :=
  let 'MakeSettingMeta _ _ _ _ v _ _ _ _ := s in v.
Definition status (s : SettingMeta) : StatusType :=
  let 'MakeSettingMeta _ _ _ _ _ st _ _ _ := s in st.
Definition platform_flags (s : SettingMeta) : Z :=
  let 'MakeSettingMeta _ _ _ _ _ _ p _ _ := s in p.
Definition env (s : SettingMeta) : string :=
  let 'MakeSettingMeta _ _ _ _ _ _ _ e _ := s in e.
Definition children (s : SettingMeta) : SettingMetaSet :=
  let 'MakeSettingMeta _ _ _ _ _ _ _ _ c := s in c.

(** The [type] tag of a meta. *)
Definition type (s : SettingMeta) : SettingType :=
  match value s with
  | MetaGroup => SETTING_GROUP
  | MetaLoadFile _ => SETTING_LOAD_FILE
  | MetaSaveFile _ => SETTING_SAVE_FILE
  | MetaSaveFolder _ => SETTING_SAVE_FOLDER
  | MetaString _ => SETTING_STRING
  | MetaFrames _ => SETTING_FRAMES
  | MetaInt _ => SETTING_INT
  | MetaFloat _ => SETTING_FLOAT
  | MetaBoolNumeric _ => SETTING_BOOL_NUMERIC_DEPRECATED
  | MetaBool _ => SETTING_BOOL
  | MetaList _ => SETTING_LIST
  | MetaEnum _ _ => SETTING_ENUM
  | MetaFlags _ _ => SETTING_FLAGS
  end.

(** [static_cast<const SettingMetaEnumeration&>(meta).enum_values]: the
    enumeration classes are [SettingMetaEnum] and [SettingMetaFlags]. *)
Definition enum_values (s : SettingMeta) : list EnumValue.t :=
  match value s with
  | MetaEnum vs _ | MetaFlags vs _ => vs
  | _ => []
  end.
End Meta.

(** [SettingMetaSet::Size], [SettingMetaSet::Empty]. *)
Fixpoint Size (settings : SettingMetaSet) : nat :=
  match settings with
  | SetNil => 0
  | SetCons _ rest => S (Size rest)
  end.

Definition Empty (settings : SettingMetaSet) : bool :=
  match settings with SetNil => true | SetCons _ _ => false end.

(** The type-specific part of a setting data, as [MetaValue] for metas. *)
Inductive DataValue : Type :=
  | DataGroup
  | DataLoadFile (value : string)
  | DataSaveFile (value : string)
  | DataSaveFolder (value : string)
  | DataFrames (value : string)
  | DataString (value : string)
  | DataEnum (value : string)
  | DataInt (value : Z)
  | DataFloat (value : float)
  | DataBoolNumeric (value : bool)
  | DataBool (value : bool)
  | DataList (value : list Entry.t)
  | DataFlags (value : list string).

Module Data.
Record t : Type := Make { key : string; value : DataValue }.

Definition type (d : t) : SettingType :=
  match value d with
  | DataGroup => SETTING_GROUP
  | DataLoadFile _ => SETTING_LOAD_FILE
  | DataSaveFile _ => SETTING_SAVE_FILE
  | DataSaveFolder _ => SETTING_SAVE_FOLDER
  | DataFrames _ => SETTING_FRAMES
  | DataString _ => SETTING_STRING
  | DataEnum _ => SETTING_ENUM
  | DataInt _ => SETTING_INT
  | DataFloat _ => SETTING_FLOAT
  | DataBoolNumeric _ => SETTING_BOOL_NUMERIC_DEPRECATED
  | DataBool _ => SETTING_BOOL
  | DataList _ => SETTING_LIST
  | DataFlags _ => SETTING_FLAGS
  end.
End Data.

Module Preset.
Record t : Type := Make
  { label : string; description : string; settings : list Data.t }.
End Preset.

(** Modelled from the spec: the [Version] class is not part of the sources
    at hand.  The spec compares the API version with 1.7.176 ("strictly
    greater") and prints it as text: a version is the triple it is built
    from, ordered lexicographically, and [str] is the dotted triple. *)
Module Version.
Record t : Type := Make { major : Z; minor : Z; patch : Z }.

Definition gtb (a b : t) : bool :=
  ((major b <? major a)
   || ((major a =? major b)
       && ((minor b <? minor a)
           || ((minor a =? minor b) && (patch b <? patch a)))))%Z.

Definition str (v : t) : string :=
  format_d (major v) ++ "." ++ format_d (minor v) ++ "." ++ format_d (patch v).
End Version.

Module Layer.
Record t : Type := Make
  { key : string;
    url : string;
    description : string;
    introduction : string;
    api_version : Version.t;
    implementation_version : string;
    file_format_version : Version.t;
    manifest_path : string;
    binary_path : string;
    platforms : Z;
    status : StatusType;
    settings : SettingMetaSet;
    presets : list Preset.t }.
End Layer.

(** ** The functions the generator calls and that live in other files

    The token tables, the printf of a float, the members of
    [SettingMetaFloat], the lookup in the meta tree, the base name of a
    path and the names of the platforms are taken as they come. *)
Class Collaborators : Type :=
  { GetSettingTypeToken : SettingType -> string;
    GetSettingViewToken : SettingView -> string;
    GetToken : StatusType -> string;
    GetLayerSettingPrefix : string -> string;
    IsEnum : SettingType -> bool;
    (** [FindSettingMeta(settings, key)]: [None] is the null pointer. *)
    FindSettingMeta : SettingMetaSet -> string -> option SettingMeta;
    (** [format(float_format, value)] *)
    format_float : string -> float -> string;
    GetFloatFormat : MetaFloat.t -> string;
    (** [SettingMetaFloat::IsValid], on the value of the data. *)
    IsValid : MetaFloat.t -> float -> bool;
    (** the text by which [result += entry.number] extends [result] *)
    number_text : Z -> string;
    (** [QFileInfo(path).fileName()] *)
    fileName : string -> string;
    (** the platform names, in the order of their bits *)
    platform_names : list string }.

(** Modelled from the spec: [GetPlatformTokens] is not part of the sources at
    hand.  "Human-readable platform names corresponding to set bits,
    preserving a fixed canonical bit order": the name of bit [i] is kept when
    bit [i] of the mask is set, in the order of the table. *)
Fixpoint platform_tokens_from (names : list string) (bit : Z) (platform_flags : Z)
  : list string :=
  match names with
  | [] => []
  | name :: names' =>
      if Z.testbit platform_flags bit
      then name :: platform_tokens_from names' (bit + 1) platform_flags
      else platform_tokens_from names' (bit + 1) platform_flags
  end.

(** ** Text helpers *)

(** [<span class="code">%s</span>] *)
Definition code_span (s : string) : string :=
  "<span class=" ++ dq ++ "code" ++ dq ++ ">" ++ s ++ "</span>".

(** [text] begins with [needle]. *)
Fixpoint starts_with (needle text : string) : bool :=
  match needle with
  | EmptyString => true
  | String a needle' =>
      match text with
      | EmptyString => false
      | String b text' => Ascii.eqb a b && starts_with needle' text'
      end
  end.

(** Occurrence of [needle] somewhere in [text]. *)
Fixpoint contains (needle text : string) : bool :=
  starts_with needle text
  || match text with
     | EmptyString => false
     | String _ text' => contains needle text'
     end.

(** The non-empty suffixes of a text, longest first. *)
Fixpoint tails (text : string) : list string :=
  match text with
  | EmptyString => []
  | String _ text' => text :: tails text'
  end.

(** [needle] and [text] differ at a position that both have: whatever
    follows [text], the result does not begin with [needle]. *)
Fixpoint fails_within (needle text : string) : bool :=
  match needle, text with
  | String a needle', String b text' =>
      if Ascii.eqb a b then fails_within needle' text' else true
  | _, _ => false
  end.

(** No occurrence of [needle] begins inside the literal [lit], whatever
    follows it. *)
Definition literal_skips (needle lit : string) : bool :=
  forallb (fails_within needle) (tails lit).

(** No occurrence of [needle] that begins before the literal [lit] ends
    inside it or after it. *)
Definition no_overlap (needle lit : string) : bool :=
  forallb (fun tail => fails_within tail lit) (tails needle).

(** [chunk] adds no occurrence of [needle] to the text it is put before. *)
Definition transparent (needle chunk : string) : Prop :=
  forall text, contains needle (chunk ++ text) = contains needle text.

(** The fields of a text that is split at every [sep]. *)
Fixpoint split_on (sep : ascii) (text : string) : list string :=
  match text with
  | EmptyString => [EmptyString]
  | String c text' =>
      if Ascii.eqb c sep then EmptyString :: split_on sep text'
      else match split_on sep text' with
           | [] => [String c EmptyString]
           | field :: fields => String c field :: fields
           end
  end.

(** ** Notions the statements are written with *)

(** Every setting of a tree, parents before children, in document order. *)
Fixpoint flatten (settings : SettingMetaSet) : list SettingMeta :=
  match settings with
  | SetNil => []
  | SetCons s settings' =>
      (s :: flatten (Meta.children s)) ++ flatten settings'
  end.

(** The entries of a set itself, without their children. *)
Fixpoint top_level (settings : SettingMetaSet) : list SettingMeta :=
  match settings with
  | SetNil => []
  | SetCons s settings' => s :: top_level settings'
  end.

(** [InTree s settings]: [s] is a setting of the tree, at any depth. *)
Inductive InTree (s : SettingMeta) : SettingMetaSet -> Prop :=
  | InTree_first (settings' : SettingMetaSet) : InTree s (SetCons s settings')
  | InTree_child (parent : SettingMeta) (settings' : SettingMetaSet) :
      InTree s (Meta.children parent) -> InTree s (SetCons parent settings')
  | InTree_rest (other : SettingMeta) (settings' : SettingMetaSet) :
      InTree s settings' -> InTree s (SetCons other settings').

(** The concatenation of emitted pieces of text. *)
Definition pieces (l : list string) : string := fold_right append "" l.

Definition shown_value (value : EnumValue.t) : bool :=
  negb (SettingView_eqb (EnumValue.view value) SETTING_VIEW_HIDDEN).

Section Doc.

Context `{Collaborators}.

Definition GetPlatformTokens (platform_flags : Z) : list string :=
  platform_tokens_from platform_names 0 platform_flags.

(** ** Value formatter *)

(** What one LIST entry appends after the separator. *)
Definition entry_text (e : Entry.t) : string :=
  if (Entry.key e =? "")%string then number_text (Entry.number e) else Entry.key e.

(** The loop of the [SETTING_LIST] case, [i] being the raw index. *)
Fixpoint list_loop (value : list Entry.t) (i : nat) (result : string) : string :=
  match value with
  | [] => result
  | e :: value' =>
      if negb (Entry.enabled e) then list_loop value' (S i) result
      else
        let result := if negb (i =? 0)%nat then result ++ "," else result in
        let result := result ++ entry_text e in
        list_loop value' (S i) result
  end.

(** The loop of the [SETTING_FLAGS] case, over [n] tokens. *)
Fixpoint flags_loop (value : list string) (i n : nat) (result : string) : string :=
  match value with
  | [] => result
  | token :: value' =>
      let result := result ++ token in
      let result := if (i <? n - 1)%nat then result ++ "," else result in
      flags_loop value' (S i) n result
  end.

Definition GetProcessedDefaultValue (meta : SettingMeta) : string :=
  match Meta.value meta with
  | MetaGroup => ""
  | MetaLoadFile default_value
  | MetaSaveFile default_value
  | MetaSaveFolder default_value => default_value
  | MetaString default_value
  | MetaFrames default_value => default_value
  | MetaInt default_value => format_d default_value
  | MetaFloat meta_float =>
      let float_format := GetFloatFormat meta_float in
      format_float float_format (MetaFloat.default_value meta_float)
  | MetaBoolNumeric default_value => if default_value then "1" else "0"
  | MetaBool default_value => if default_value then "TRUE" else "FALSE"
  | MetaList default_value => list_loop default_value 0 ""
  | MetaEnum _ default_value => default_value
  | MetaFlags _ default_value =>
      flags_loop default_value 0 (List.length default_value) ""
  end.

(** [FindSettingMeta<SettingMetaFloat>]: the found meta seen as a float meta. *)
Definition FindSettingMetaFloat (settings : SettingMetaSet) (key : string)
  : option MetaFloat.t :=
  match FindSettingMeta settings key with
  | Some meta =>
      match Meta.value meta with
      | MetaFloat meta_float => Some meta_float
      | _ => None
      end
  | None => None
  end.

Definition GetProcessedValue (layer : Layer.t) (data : Data.t) : option string :=
  match Data.value data with
  | DataGroup => Some ""
  | DataLoadFile value
  | DataSaveFile value
  | DataSaveFolder value => Some value
  | DataFrames value => Some value
  | DataString value
  | DataEnum value => Some value
  | DataInt value => Some (format_d value)
  | DataFloat value =>
      match FindSettingMetaFloat (Layer.settings layer) (Data.key data) with
      | Some meta =>
          let float_format := GetFloatFormat meta in
          if IsValid meta value
          then Some (format_float float_format value)
          else Some (format_float float_format (MetaFloat.default_value meta))
      | None => None
      end
  | DataBoolNumeric value => Some (if value then "1" else "0")
  | DataBool value => Some (if value then "TRUE" else "FALSE")
  | DataList value => Some (list_loop value 0 "")
  | DataFlags value => Some (flags_loop value 0 (List.length value) "")
  end.

(** ** Platform token builder *)

Definition platform_span (name : string) : string :=
  "<span class=" ++ dq ++ "code" ++ dq ++ ">" ++ name ++ "</ span>".

Fixpoint platforms_loop (platforms : list string) (i n : nat) (text : string)
  : string :=
  match platforms with
  | [] => text
  | name :: platforms' =>
      let text := text ++ platform_span name in
      let text := if (i <? n - 1)%nat then text ++ ", " else text in
      platforms_loop platforms' (S i) n text
  end.

Definition BuildPlatformsHTML (platform_flags : Z) : string :=
  let platforms := GetPlatformTokens platform_flags in
  platforms_loop platforms 0 (List.length platforms) "".

(** ** Settings overview *)

(** The test that guards the emission of a setting, in both traversals. *)
Definition emitted (s : SettingMeta) : bool :=
  negb (SettingType_eqb (Meta.type s) SETTING_GROUP)
  && negb (SettingView_eqb (Meta.view s) SETTING_VIEW_HIDDEN).

(** The text of one row of the overview table. *)
Definition overview_row (layer : Layer.t) (s : SettingMeta) : string :=
  "<tr>" ++ nl
  ++ (tab ++ "<td><a id=" ++ dq ++ Meta.key s ++ dq ++ "href=" ++ dq ++ "#"
      ++ Meta.key s ++ "-detailed" ++ dq ++ ">" ++ Meta.label s ++ "</a></td>" ++ nl)
  ++ (tab ++ "<td>" ++ code_span (GetSettingTypeToken (Meta.type s)) ++ "</td>" ++ nl)
  ++ (tab ++ "<td>" ++ code_span (GetProcessedDefaultValue s) ++ "</td>" ++ nl)
  ++ (tab ++ "<td>"
      ++ code_span (GetLayerSettingPrefix (Layer.key layer) ++ Meta.key s)
      ++ "</td>" ++ nl)
  ++ (if (Meta.env s =? "")%string
      then tab ++ "<td>N/A</td>" ++ nl
      else tab ++ "<td>" ++ code_span (Meta.env s) ++ "</td>" ++ nl)
  ++ (tab ++ "<td>" ++ BuildPlatformsHTML (Meta.platform_flags s) ++ "</td>" ++ nl)
  ++ "</tr>" ++ nl.

Fixpoint WriteSettingsOverview (layer : Layer.t) (settings : SettingMetaSet)
  (text : string) : string :=
  match settings with
  | SetNil => text
  | SetCons s settings' =>
      let text := if emitted s then text ++ overview_row layer s else text in
      let text := WriteSettingsOverview layer (Meta.children s) text in
      WriteSettingsOverview layer settings' text
  end.

(** ** Settings details *)

Definition GetLayerSettingsDocURL (layer : Layer.t) : string :=
  if Version.gtb (Layer.api_version layer) (Version.Make 1 7 176)
  then "https://github.com/LunarG/VulkanTools/tree/sdk-"
       ++ Version.str (Layer.api_version layer)
       ++ ".0/vkconfig#vulkan-layers-settings"
  else "https://github.com/LunarG/VulkanTools/tree/master/vkconfig#vulkan-layers-settings".

(** One row of the table of enum values of setting [s]. *)
Definition enum_value_row (s : SettingMeta) (value : EnumValue.t) : string :=
  "<tr>" ++ nl
  ++ (tab ++ "<td>" ++ EnumValue.key value ++ "</td>" ++ nl)
  ++ (tab ++ "<td>" ++ EnumValue.label value ++ "</td>" ++ nl)
  ++ (if (EnumValue.description value =? "")%string
      then tab ++ "<td>N/A</td>" ++ nl
      else tab ++ "<td class=" ++ dq ++ "desc" ++ dq ++ ">"
           ++ EnumValue.description value ++ "</td>" ++ nl)
  ++ (tab ++ "<td>" ++ BuildPlatformsHTML (Meta.platform_flags s) ++ "</td>" ++ nl)
  ++ "</tr>" ++ nl.

(** The loop over [enum_values], with its [continue] on hidden values. *)
Fixpoint enum_values_loop (s : SettingMeta) (enum_values : list EnumValue.t)
  (text : string) : string :=
  match enum_values with
  | [] => text
  | value :: enum_values' =>
      if SettingView_eqb (EnumValue.view value) SETTING_VIEW_HIDDEN
      then enum_values_loop s enum_values' text
      else enum_values_loop s enum_values' (text ++ enum_value_row s value)
  end.

Definition enum_table_head : string :=
  "<table>" ++ nl
  ++ "<thead><tr><th>Enum Value</th><th>Label</th><th class=" ++ dq ++ "desc" ++ dq
  ++ ">Description</th><th>Platforms Supported</th></tr></thead>" ++ nl
  ++ "<tbody>" ++ nl.

Definition enum_table_foot : string := "</tbody></table>" ++ nl.

(** The block guarded by [IsEnum(settings[i].type)]. *)
Definition WriteEnumValues (s : SettingMeta) (text : string) : string :=
  if IsEnum (Meta.type s)
  then
    let text := text ++ enum_table_head in
    let text := enum_values_loop s (Meta.enum_values s) text in
    text ++ enum_table_foot
  else text.

(** What the detailed section emits for [s] before the enum block. *)
Definition detail_head (layer : Layer.t) (s : SettingMeta) : string :=
  (if StatusType_eqb (Meta.status s) STATUS_STABLE
   then "<h3><a id=" ++ dq ++ Meta.key s ++ "-detailed" ++ dq ++ " href=" ++ dq ++ "#"
        ++ Meta.key s ++ dq ++ ">" ++ Meta.label s ++ "</a></h3>" ++ nl
   else "<h3><a id=" ++ dq ++ Meta.key s ++ "-detailed" ++ dq ++ " href=" ++ dq ++ "#"
        ++ Meta.key s ++ dq ++ ">" ++ Meta.label s ++ "</a> ("
        ++ GetToken (Meta.status s) ++ ")</h3>" ++ nl)
  ++ (tab ++ "<p>" ++ Meta.description s ++ "</p>" ++ nl)
  ++ ("<h4>Setting Properties:</h4>" ++ nl)
  ++ ("<ul>" ++ nl)
  ++ (tab ++ "<li><a href=" ++ dq ++ GetLayerSettingsDocURL layer ++ dq
      ++ ">vk_layer_settings.txt</a> Variable: "
      ++ code_span (GetLayerSettingPrefix (Layer.key layer) ++ Meta.key s)
      ++ "</li>" ++ nl)
  ++ (if (Meta.env s =? "")%string
      then tab ++ "<li>Environment Variable: " ++ code_span "N/A" ++ "</li>" ++ nl
      else tab ++ "<li>Environment Variable: " ++ code_span (Meta.env s) ++ "</li>" ++ nl)
  ++ (tab ++ "<li>Platforms Supported: " ++ BuildPlatformsHTML (Meta.platform_flags s)
      ++ "</li>" ++ nl)
  ++ (if negb (SettingView_eqb (Meta.view s) SETTING_VIEW_STANDARD)
      then tab ++ "<li>Setting Level: " ++ GetSettingViewToken (Meta.view s)
           ++ "</li>" ++ nl
      else "")
  ++ ("</ul>" ++ nl)
  ++ (tab ++ "<p>Setting Type: " ++ code_span (GetSettingTypeToken (Meta.type s))
      ++ " - Setting Default Value: " ++ code_span (GetProcessedDefaultValue s)
      ++ "</p>" ++ nl).

Fixpoint WriteSettingsDetails (layer : Layer.t) (settings : SettingMetaSet)
  (text : string) : string :=
  match settings with
  | SetNil => text
  | SetCons s settings' =>
      let text :=
        if emitted s
        then WriteEnumValues s (text ++ detail_head layer s)
        else text in
      let text := WriteSettingsDetails layer (Meta.children s) text in
      WriteSettingsDetails layer settings' text
  end.

(** *** The same text, setting by setting *)

(** The table of the enum values of [s], empty when [s] is no enumeration. *)
Definition enum_table (s : SettingMeta) : string :=
  if IsEnum (Meta.type s)
  then enum_table_head
       ++ pieces (map (enum_value_row s) (filter shown_value (Meta.enum_values s)))
       ++ enum_table_foot
  else "".

(** The detailed section of one setting. *)
Definition detail_section (layer : Layer.t) (s : SettingMeta) : string :=
  detail_head layer s ++ enum_table s.

(** ** The document *)

(** Lines 295-307: the shell of the document and its style sheet. *)
Definition doc_shell : string :=
  "<!DOCTYPE html>" ++ nl
  ++ "<html>" ++ nl
  ++ "<head><title></title></head>" ++ nl
  ++ "<body>" ++ nl
  ++ "<style>" ++ nl
  ++ tab ++ "a {color: #A41E22;}" ++ nl
  ++ tab ++ "h1 {color: #A41E22;}" ++ nl
  ++ tab ++ "h2 {color: #A41E22;}" ++ nl
  ++ tab ++ "table {border: 1px solid; width: 100%; margin-left: auto; margin-right: auto;}" ++ nl
  ++ tab ++ "td {border: 1px dotted;}" ++ nl
  ++ tab ++ ".code {color: #008000; font-family: consolas; }" ++ nl
  ++ tab ++ ".desc {width:50%;}" ++ nl
  ++ "</style>" ++ nl.

(** Lines 309-327: title, status, description and introduction. *)
Definition WriteHeader (layer : Layer.t) (text : string) : string :=
  let text := text ++ ("<h1 id=" ++ dq ++ "top" ++ dq ++ ">") in
  let text :=
    if (Layer.url layer =? "")%string
    then text ++ (Layer.key layer ++ nl)
    else text ++ ("<a href=" ++ dq ++ Layer.url layer ++ dq ++ ">" ++ Layer.key layer
                  ++ "</a>" ++ nl) in
  let text :=
    if negb (StatusType_eqb (Layer.status layer) STATUS_STABLE)
    then text ++ (" (" ++ GetToken (Layer.status layer) ++ ")")
    else text in
  let text := text ++ ("</h1>" ++ nl) in
  let text :=
    if negb (Layer.description layer =? "")%string
    then text ++ ("<h3>" ++ Layer.description layer ++ "</h3>" ++ nl)
    else text in
  if negb (Layer.introduction layer =? "")%string
  then text ++ ("<p>" ++ Layer.introduction layer ++ "</p>" ++ nl)
  else text.

(** The lines of the "Layer Properties" list, one definition per [text +=]. *)
Definition api_version_line (layer : Layer.t) : string :=
  tab ++ "<li>API Version: " ++ Version.str (Layer.api_version layer) ++ "</li>" ++ nl.

Definition implementation_version_line (layer : Layer.t) : string :=
  tab ++ "<li>Implementation Version: " ++ Layer.implementation_version layer
  ++ "</li>" ++ nl.

Definition manifest_line (layer : Layer.t) : string :=
  tab ++ "<li>Layer Manifest: " ++ fileName (Layer.manifest_path layer) ++ "<ul>" ++ nl.

Definition file_format_line (layer : Layer.t) : string :=
  tab ++ tab ++ "<li>File Format: " ++ Version.str (Layer.file_format_version layer)
  ++ "</li>" ++ nl.

Definition binary_path_line (layer : Layer.t) : string :=
  tab ++ tab ++ "<li>Layer Binary Path: " ++ Layer.binary_path layer ++ "</li>" ++ nl.

Definition platforms_line (layer : Layer.t) : string :=
  tab ++ "<li>Supported Platforms: " ++ BuildPlatformsHTML (Layer.platforms layer)
  ++ "</li>" ++ nl.

Definition status_line (layer : Layer.t) : string :=
  tab ++ "<li>Status: " ++ GetToken (Layer.status layer) ++ "</li>" ++ nl.

Definition settings_count_line (layer : Layer.t) : string :=
  tab ++ "<li><a href=" ++ dq ++ "#settings" ++ dq ++ ">Number of Layer Settings: "
  ++ format_d (Z.of_nat (Size (Layer.settings layer))) ++ "</a></li>" ++ nl.

Definition presets_count_line (layer : Layer.t) : string :=
  tab ++ "<li><a href=" ++ dq ++ "#presets" ++ dq ++ ">Number of Layer Presets: "
  ++ format_d (Z.of_nat (List.length (Layer.presets layer))) ++ "</a></li>" ++ nl.

(** Lines 329-349. *)
Definition WriteLayerProperties (layer : Layer.t) (text : string) : string :=
  let text := text ++ ("<h2><a href=" ++ dq ++ "#top" ++ dq ++ ">Layer Properties</a></h2>" ++ nl) in
  let text := text ++ ("<ul>" ++ nl) in
  let text := text ++ api_version_line layer in
  let text := text ++ implementation_version_line layer in
  let text := text ++ manifest_line layer in
  let text := text ++ file_format_line layer in
  let text := text ++ binary_path_line layer in
  let text := text ++ (tab ++ "</ul></li>" ++ nl) in
  let text :=
    if negb (Layer.platforms layer =? 0)%Z then text ++ platforms_line layer else text in
  let text :=
    if negb (StatusType_eqb (Layer.status layer) STATUS_STABLE)
    then text ++ status_line layer else text in
  let text :=
    if negb (Empty (Layer.settings layer)) then text ++ settings_count_line layer
    else text in
  let text :=
    match Layer.presets layer with
    | [] => text
    | _ :: _ => text ++ presets_count_line layer
    end in
  text ++ ("</ul>" ++ nl).

(** Lines 351-354. *)
Definition WriteVisit (layer : Layer.t) (text : string) : string :=
  if negb (Layer.url layer =? "")%string
  then text ++ ("<p>Visit <a href=" ++ dq ++ Layer.url layer ++ dq ++ ">"
                ++ Layer.key layer ++ " home page</a> for more information.</p>" ++ nl)
  else text.

Definition overview_heading : string :=
  "<h2><a href=" ++ dq ++ "#top" ++ dq ++ " id=" ++ dq ++ "settings" ++ dq
  ++ ">Layer Settings Overview</a></h2>" ++ nl.

Definition details_heading : string :=
  "<h2><a href=" ++ dq ++ "#top" ++ dq ++ ">Layer Settings Details</a></h2>" ++ nl.

Definition presets_heading : string :=
  "<h2><a href=" ++ dq ++ "#top" ++ dq ++ " id=" ++ dq ++ "presets" ++ dq
  ++ ">Layer Presets</a></h2>" ++ nl.

Definition overview_table_head (layer : Layer.t) : string :=
  "<table><thead><tr>"
  ++ ("<th>Setting</th><th>Type</th><th>Default Value</th><th><a href=" ++ dq
      ++ GetLayerSettingsDocURL layer ++ dq ++ ">vk_layer_settings.txt</a> Variable</th>"
      ++ "<th>Environment Variable</th><th>Supported Platforms</th>")
  ++ ("</tr></thead><tbody>" ++ nl).

(** Lines 356-369. *)
Definition WriteSettings (layer : Layer.t) (text : string) : string :=
  if negb (Empty (Layer.settings layer))
  then
    let text := text ++ overview_heading in
    let text := text ++ overview_table_head layer in
    let text := WriteSettingsOverview layer (Layer.settings layer) text in
    let text := text ++ ("</tbody></table>" ++ nl) in
    let text := text ++ details_heading in
    WriteSettingsDetails layer (Layer.settings layer) text
  else text.

(** The list item of one preset value, from the meta found for its key. *)
Definition preset_value_line (meta : SettingMeta) (value : string) : string :=
  tab ++ "<li><a href=" ++ dq ++ "#" ++ Meta.key meta ++ "-detailed" ++ dq ++ ">"
  ++ Meta.label meta ++ "</a>: " ++ code_span value ++ "</li>" ++ nl.

(** Lines 382-388: [meta] is dereferenced without a test, which is defined
    only when the lookup found a meta. *)
Fixpoint preset_settings_loop (layer : Layer.t) (settings : list Data.t)
  (text : string) : option string :=
  match settings with
  | [] => Some text
  | data :: settings' =>
      match FindSettingMeta (Layer.settings layer) (Data.key data) with
      | None => None
      | Some meta =>
          match GetProcessedValue layer data with
          | None => None
          | Some value =>
              preset_settings_loop layer settings' (text ++ preset_value_line meta value)
          end
      end
  end.

(** Lines 373-391. *)
Fixpoint presets_loop (layer : Layer.t) (presets : list Preset.t) (text : string)
  : option string :=
  match presets with
  | [] => Some text
  | preset :: presets' =>
      let text := text ++ ("<h3>" ++ Preset.label preset ++ "</h3>" ++ nl) in
      let text := text ++ ("<p>" ++ Preset.description preset ++ "</p>") in
      let text := text ++ ("<h4>Preset Setting Values:</h4>" ++ nl) in
      let text := text ++ ("<ul>" ++ nl) in
      match preset_settings_loop layer (Preset.settings preset) text with
      | None => None
      | Some text => presets_loop layer presets' (text ++ ("</ul>" ++ nl))
      end
  end.

(** Lines 371-392. *)
Definition WritePresets (layer : Layer.t) (text : string) : option string :=
  match Layer.presets layer with
  | [] => Some text
  | _ :: _ => presets_loop layer (Layer.presets layer) (text ++ presets_heading)
  end.

(** The text that [ExportHtmlDoc] hands to the file. *)
Definition ExportHtmlDoc (layer : Layer.t) : option string :=
  let text := "" in
  let text := text ++ doc_shell in
  let text := WriteHeader layer text in
  let text := WriteLayerProperties layer text in
  let text := WriteVisit layer text in
  let text := WriteSettings layer text in
  match WritePresets layer text with
  | None => None
  | Some text =>
      let text := text ++ ("</body>" ++ nl) in
      Some (text ++ ("</html>" ++ nl))
  end.

(** *** The same text, preset by preset *)

(** The rows of the overview table of a tree. *)
Definition overview_rows (layer : Layer.t) (settings : SettingMetaSet) : list string :=
  map (overview_row layer) (filter emitted (flatten settings)).

(** The key of [data] resolves: the lookups that the rendering of [data]
    makes for it return a meta, the one of line 384 and, for a FLOAT data,
    the one of line 120. *)
Definition resolves (layer : Layer.t) (data : Data.t) : Prop :=
  (exists meta, FindSettingMeta (Layer.settings layer) (Data.key data) = Some meta)
  /\ (forall value,
        Data.value data = DataFloat value ->
        exists meta_float,
          FindSettingMetaFloat (Layer.settings layer) (Data.key data) = Some meta_float).

(** The list item of [data], when its lookups succeed. *)
Definition preset_entry (layer : Layer.t) (data : Data.t) : string :=
  match FindSettingMeta (Layer.settings layer) (Data.key data),
        GetProcessedValue layer data with
  | Some meta, Some value => preset_value_line meta value
  | _, _ => ""
  end.

Definition preset_section (layer : Layer.t) (preset : Preset.t) : string :=
  ("<h3>" ++ Preset.label preset ++ "</h3>" ++ nl)
  ++ ("<p>" ++ Preset.description preset ++ "</p>")
  ++ ("<h4>Preset Setting Values:</h4>" ++ nl)
  ++ ("<ul>" ++ nl)
  ++ pieces (map (preset_entry layer) (Preset.settings preset))
  ++ ("</ul>" ++ nl).

Definition properties_heading : string :=
  "<h2><a href=" ++ dq ++ "#top" ++ dq ++ ">Layer Properties</a></h2>" ++ nl.

(** The texts that the header, the properties and the visit line take from
    the layer and from the token tables. *)
Definition layer_texts (layer : Layer.t) : list string :=
  ([Layer.key layer; Layer.url layer; Layer.description layer;
    Layer.introduction layer; Version.str (Layer.api_version layer);
    Layer.implementation_version layer; fileName (Layer.manifest_path layer);
    Version.str (Layer.file_format_version layer); Layer.binary_path layer;
    GetToken (Layer.status layer)]
   ++ GetPlatformTokens (Layer.platforms layer))%list.

(** The titles of the three sections that depend on settings and presets. *)
Definition section_titles : list string :=
  ["Layer Settings Overview"; "Layer Settings Details"; "Layer Presets"].

End Doc.

(** ** Notions of the further statements *)

(** [c] occurs in [text]. *)
Fixpoint has_char (c : ascii) (text : string) : bool :=
  match text with
  | EmptyString => false
  | String c' text' => Ascii.eqb c' c || has_char c text'
  end.

(** The entries of [a] followed by those of [b]. *)
Fixpoint set_app (a b : SettingMetaSet) : SettingMetaSet :=
  match a with
  | SetNil => b
  | SetCons s a' => SetCons s (set_app a' b)
  end.

(** The data value that holds the default value of a meta. *)
Definition default_data (value : MetaValue) : DataValue :=
  match value with
  | MetaGroup => DataGroup
  | MetaLoadFile default_value => DataLoadFile default_value
  | MetaSaveFile default_value => DataSaveFile default_value
  | MetaSaveFolder default_value => DataSaveFolder default_value
  | MetaString default_value => DataString default_value
  | MetaFrames default_value => DataFrames default_value
  | MetaInt default_value => DataInt default_value
  | MetaFloat meta_float => DataFloat (MetaFloat.default_value meta_float)
  | MetaBoolNumeric default_value => DataBoolNumeric default_value
  | MetaBool default_value => DataBool default_value
  | MetaList default_value => DataList default_value
  | MetaEnum _ default_value => DataEnum default_value
  | MetaFlags _ default_value => DataFlags default_value
  end.

(** The anchor of the detailed section of [s] and the link to it, the
    anchor of the overview row of [s] and the link to it. *)
Definition detailed_target (s : SettingMeta) : string :=
  "id=" ++ dq ++ Meta.key s ++ "-detailed" ++ dq.

Definition detailed_link (s : SettingMeta) : string :=
  "href=" ++ dq ++ "#" ++ Meta.key s ++ "-detailed" ++ dq.

Definition overview_target (s : SettingMeta) : string :=
  "id=" ++ dq ++ Meta.key s ++ dq.

Definition overview_link (s : SettingMeta) : string :=
  "href=" ++ dq ++ "#" ++ Meta.key s ++ dq.

Section DocParts.

Context `{Collaborators}.

(** The heading of the detailed section of [s], lines 229-235. *)
Definition detail_heading (s : SettingMeta) : string :=
  if StatusType_eqb (Meta.status s) STATUS_STABLE
  then "<h3><a id=" ++ dq ++ Meta.key s ++ "-detailed" ++ dq ++ " href=" ++ dq ++ "#"
       ++ Meta.key s ++ dq ++ ">" ++ Meta.label s ++ "</a></h3>" ++ nl
  else "<h3><a id=" ++ dq ++ Meta.key s ++ "-detailed" ++ dq ++ " href=" ++ dq ++ "#"
       ++ Meta.key s ++ dq ++ ">" ++ Meta.label s ++ "</a> ("
       ++ GetToken (Meta.status s) ++ ")</h3>" ++ nl.

(** What lines 356-369 add to the document. *)
Definition settings_part (layer : Layer.t) : string :=
  if Empty (Layer.settings layer) then ""
  else overview_heading
       ++ overview_table_head layer
       ++ pieces (overview_rows layer (Layer.settings layer))
       ++ ("</tbody></table>" ++ nl)
       ++ details_heading
       ++ pieces (map (detail_section layer)
                    (filter emitted (flatten (Layer.settings layer)))).

(** What lines 371-392 add to the document, when every lookup succeeds. *)
Definition presets_part (layer : Layer.t) : string :=
  match Layer.presets layer with
  | [] => ""
  | _ :: _ =>
      presets_heading ++ pieces (map (preset_section layer) (Layer.presets layer))
  end.

End DocParts.

(** ** A concrete set of collaborators, for the examples *)

(** Modelled from the spec: [FindSettingMeta] is not part of the sources at
    hand.  "Setting values resolved against the layer's meta tree", by
    their key: the first setting of the tree that has the key, parents
    before children. *)
Fixpoint find_by_key (settings : SettingMetaSet) (key : string) : option SettingMeta :=
  match settings with
  | SetNil => None
  | SetCons s settings' =>
      if (Meta.key s =? key)%string then Some s
      else match find_by_key (Meta.children s) key with
           | Some found => Some found
           | None => find_by_key settings' key
           end
  end.

(** Modelled from the spec: [IsEnum] is not part of the sources at hand.
    The settings with a table of enum values are those that line 261 reads
    as [SettingMetaEnumeration], the base of the two classes that have
    [enum_values]: the ENUM and the FLAGS settings. *)
Definition IsEnumeration (type : SettingType) : bool :=
  match type with
  | SETTING_ENUM | SETTING_FLAGS => true
  | _ => false
  end.

(** What [result += entry.number] appends to a [std::string]: the one
    character whose code is the number. *)
Definition number_char (number : Z) : string :=
  String (ascii_of_N (Z.to_N (number mod 256))) "".

Definition sample_type_token (t : SettingType) : string :=
  match t with
  | SETTING_STRING => "STRING" | SETTING_INT => "INT" | SETTING_FLOAT => "FLOAT"
  | SETTING_GROUP => "GROUP" | SETTING_SAVE_FILE => "SAVE_FILE"
  | SETTING_LOAD_FILE => "LOAD_FILE" | SETTING_SAVE_FOLDER => "SAVE_FOLDER"
  | SETTING_BOOL => "BOOL" | SETTING_BOOL_NUMERIC_DEPRECATED => "BOOL_NUMERIC"
  | SETTING_ENUM => "ENUM" | SETTING_FLAGS => "FLAGS" | SETTING_FRAMES => "FRAMES"
  | SETTING_LIST => "LIST"
  end.

Definition sample_view_token (v : SettingView) : string :=
  match v with
  | SETTING_VIEW_STANDARD => "STANDARD"
  | SETTING_VIEW_ADVANCED => "ADVANCED"
  | SETTING_VIEW_HIDDEN => "HIDDEN"
  end.

Definition sample_status_token (s : StatusType) : string :=
  match s with
  | STATUS_STABLE => "STABLE" | STATUS_BETA => "BETA"
  | STATUS_ALPHA => "ALPHA" | STATUS_DEPRECATED => "DEPRECATED"
  end.

Definition sample_in_range (meta : MetaFloat.t) (value : float) : bool :=
  PrimFloat.leb (MetaFloat.min_value meta) value
  && PrimFloat.leb value (MetaFloat.max_value meta).

(** A stand-in for the printf of a float: it tells the values of the
    examples apart. *)
Definition sample_format_float (float_format : string) (value : float) : string :=
  if PrimFloat.eqb value 0.5 then "0.50"
  else if PrimFloat.eqb value 2 then "2.00"
  else float_format.

Definition sample : Collaborators :=
  {| GetSettingTypeToken := sample_type_token;
     GetSettingViewToken := sample_view_token;
     GetToken := sample_status_token;
     GetLayerSettingPrefix := fun key => key ++ ".";
     IsEnum := IsEnumeration;
     FindSettingMeta := find_by_key;
     format_float := sample_format_float;
     GetFloatFormat := fun _ => "%.2f";
     IsValid := sample_in_range;
     number_text := number_char;
     fileName := fun path => path;
     platform_names := ["WINDOWS"; "LINUX"; "MACOS"] |}.

Definition leaf (key label : string) (value : MetaValue) (view : SettingView)
  : SettingMeta :=
  MakeSettingMeta key label "" value view STATUS_STABLE 3 "" SetNil.

Definition ratio_meta : SettingMeta :=
  leaf "ratio" "Ratio" (MetaFloat (MetaFloat.Make 0.5 0 1 2 0)) SETTING_VIEW_STANDARD.

Definition enable_meta : SettingMeta :=
  leaf "enable" "Enable" (MetaBool true) SETTING_VIEW_STANDARD.

Definition secret_meta : SettingMeta :=
  leaf "secret" "Secret" (MetaInt 7) SETTING_VIEW_HIDDEN.

Definition mode_meta : SettingMeta :=
  leaf "mode" "Mode"
    (MetaEnum [EnumValue.Make "fast" "Fast" "" SETTING_VIEW_STANDARD;
               EnumValue.Make "debug" "Debug" "Internal" SETTING_VIEW_HIDDEN;
               EnumValue.Make "safe" "Safe" "Checks all" SETTING_VIEW_ADVANCED]
       "fast")
    SETTING_VIEW_STANDARD.

(** A group that holds one visible and one hidden setting. *)
Definition group_meta : SettingMeta :=
  MakeSettingMeta "group" "Group" "" MetaGroup SETTING_VIEW_STANDARD STATUS_STABLE 3 ""
    (SetCons enable_meta (SetCons secret_meta SetNil)).

Definition make_layer (settings : SettingMetaSet) (presets : list Preset.t) : Layer.t :=
  {| Layer.key := "VK_LAYER_TEST";
     Layer.url := "";
     Layer.description := "";
     Layer.introduction := "";
     Layer.api_version := Version.Make 1 2 176;
     Layer.implementation_version := "";
     Layer.file_format_version := Version.Make 1 4 0;
     Layer.manifest_path := "";
     Layer.binary_path := "";
     Layer.platforms := 0;
     Layer.status := STATUS_STABLE;
     Layer.settings := settings;
     Layer.presets := presets |}.

(** The LIST value whose first entry is disabled. *)
Definition first_disabled : list Entry.t :=
  [Entry.Make "a" 0 false; Entry.Make "b" 0 true].

(** A setting that is shown and has a child that is shown. *)
Definition parent_meta : SettingMeta :=
  MakeSettingMeta "parent" "Parent" "" (MetaBool false) SETTING_VIEW_STANDARD
    STATUS_STABLE 3 "" (SetCons ratio_meta SetNil).

Definition sample_settings : SettingMetaSet :=
  SetCons group_meta (SetCons parent_meta (SetCons mode_meta SetNil)).

Definition sample_preset : Preset.t :=
  Preset.Make "Quick" "Fewer checks"
    [Data.Make "enable" (DataBool false); Data.Make "ratio" (DataFloat 2)].

Definition sample_layer : Layer.t := make_layer sample_settings [sample_preset].

(** A layer whose tree is one group. *)
Definition group_layer : Layer.t := make_layer (SetCons group_meta SetNil) [].

(** A layer without settings and without presets. *)
Definition bare_layer : Layer.t := make_layer SetNil [].

Definition recent_layer : Layer.t :=
  {| Layer.key := "VK_LAYER_TEST";
     Layer.url := "https://example.org/layer";
     Layer.description := "A test layer";
     Layer.introduction := "";
     Layer.api_version := Version.Make 1 8 0;
     Layer.implementation_version := "2";
     Layer.file_format_version := Version.Make 1 4 0;
     Layer.manifest_path := "VkLayer_test.json";
     Layer.binary_path := "./libVkLayer_test.so";
     Layer.platforms := 5;
     Layer.status := STATUS_BETA;
     Layer.settings := SetNil;
     Layer.presets := [] |}.

Definition flags_meta : SettingMeta :=
  leaf "checks" "Checks"
    (MetaFlags [EnumValue.Make "core" "Core" "" SETTING_VIEW_STANDARD;
                EnumValue.Make "sync" "Sync" "" SETTING_VIEW_STANDARD;
                EnumValue.Make "perf" "Perf" "" SETTING_VIEW_STANDARD]
       ["core"; "sync"])
    SETTING_VIEW_STANDARD.

(** A LIST value whose first entry is enabled: a key, a disabled key and
    a number. *)
Definition first_enabled : list Entry.t :=
  [Entry.Make "a" 0 true; Entry.Make "b" 0 false; Entry.Make "" 42 true].

(** A preset whose second data has a key that no setting has. *)
Definition stray_preset : Preset.t :=
  Preset.Make "Stray" ""
    [Data.Make "enable" (DataBool true); Data.Make "missing" (DataInt 1)].

(** A setting that is in beta. *)
Definition beta_meta : SettingMeta :=
  MakeSettingMeta "trace" "Trace" "" (MetaBool false) SETTING_VIEW_STANDARD
    STATUS_BETA 3 "" SetNil.

(** * Properties *)

(** ** Facts on [string] used throughout *)

Lemma append_nil_r (s : string) : s ++ "" = s.
Proof. induction s as [|c s IH]; simpl; [reflexivity | now rewrite IH]. Qed.

Lemma append_assoc (a b c : string) : (a ++ b) ++ c = a ++ (b ++ c).
Proof. induction a as [|x a IH]; simpl; [reflexivity | now rewrite IH]. Qed.

(** ** The tags are compared by their boolean equalities *)

Lemma SettingType_eqb_eq (a b : SettingType) : SettingType_eqb a b = true <-> a = b.
Proof. destruct a, b; simpl; split; congruence. Qed.

Lemma SettingView_eqb_eq (a b : SettingView) : SettingView_eqb a b = true <-> a = b.
Proof. destruct a, b; simpl; split; congruence. Qed.

(** * Occurrences of a text in a concatenation *)

Section Occurrences.

Variable needle : string.

Lemma fails_within_sound (text : string) :
  fails_within needle text = true ->
  forall rest, starts_with needle (text ++ rest) = false.
Proof.
  revert text.
  induction needle as [|a needle' IH]; intros [|b text] Hfail rest;
    try discriminate.
  cbn in Hfail |- *.
  destruct (Ascii.eqb a b); [|reflexivity].
  now rewrite (IH text Hfail).
Qed.

Lemma literal_skips_sound (lit : string) :
  literal_skips needle lit = true -> transparent needle lit.
Proof.
  unfold literal_skips, transparent.
  induction lit as [|c lit IH]; intros Hskip text; [reflexivity|].
  cbn [tails forallb] in Hskip. apply andb_prop in Hskip as [Hhere Hlater].
  change (String c lit ++ text) with (String c (lit ++ text)).
  cbn [contains].
  change (String c (lit ++ text)) with (String c lit ++ text).
  rewrite (fails_within_sound _ Hhere), (IH Hlater). reflexivity.
Qed.

Lemma contains_app_r (a text : string) :
  contains needle text = true -> contains needle (a ++ text) = true.
Proof.
  intro Hin. induction a as [|c a IH]; [exact Hin|].
  cbn [append contains]. rewrite IH. apply orb_true_r.
Qed.

End Occurrences.

Lemma starts_with_app (needle a rest : string) :
  starts_with needle (a ++ rest) = true ->
  starts_with needle a = true
  \/ exists tail, In tail (tails needle) /\ starts_with tail rest = true.
Proof.
  revert a.
  induction needle as [|x needle IH]; intros a Hstarts; [now left|].
  destruct a as [|y a].
  - right. exists (String x needle). split; [now left | exact Hstarts].
  - cbn in Hstarts |- *. apply andb_prop in Hstarts as [Hxy Hstarts].
    rewrite Hxy. destruct (IH a Hstarts) as [Hin | (tail & Htail & Hrest)].
    + now left.
    + right. exists tail. split; [now right | exact Hrest].
Qed.

Lemma contains_app_inv (needle a rest : string) :
  contains needle (a ++ rest) = true ->
  contains needle a = true
  \/ (exists tail, In tail (tails needle) /\ starts_with tail rest = true)
  \/ contains needle rest = true.
Proof.
  induction a as [|c a IH]; intro Hin; [now right; right|].
  change (String c a ++ rest) with (String c (a ++ rest)) in Hin.
  cbn [contains] in Hin. apply orb_prop in Hin as [Hhere | Hlater].
  - change (String c (a ++ rest)) with (String c a ++ rest) in Hhere.
    destruct (starts_with_app _ _ _ Hhere) as [Hstarts | Htail].
    + left. cbn [contains]. rewrite Hstarts. reflexivity.
    + right. now left.
  - destruct (IH Hlater) as [Ha | [Htail | Hrest]].
    + left. cbn [contains]. rewrite Ha. apply orb_true_r.
    + right. now left.
    + right. now right.
Qed.

(** A field without occurrence, followed by a literal that no occurrence
    can run into, adds none. *)
Lemma field_skips (needle field lit : string) :
  contains needle field = false ->
  no_overlap needle lit = true ->
  forall text, contains needle (field ++ lit ++ text) = contains needle (lit ++ text).
Proof.
  intros Hfield Hlit text.
  destruct (contains needle (lit ++ text)) eqn:Hrest.
  - now apply contains_app_r.
  - apply not_true_is_false. intro Hin.
    destruct (contains_app_inv _ _ _ Hin) as [Ha | [(tail & Htail & Hstarts) | Hr]].
    + congruence.
    + unfold no_overlap in Hlit. rewrite forallb_forall in Hlit.
      rewrite (fails_within_sound _ _ (Hlit tail Htail)) in Hstarts. discriminate.
    + congruence.
Qed.

Lemma transparent_nil (needle : string) : transparent needle "".
Proof. intro text. reflexivity. Qed.

Lemma transparent_app (needle a b : string) :
  transparent needle a -> transparent needle b -> transparent needle (a ++ b).
Proof.
  intros Ha Hb text. now rewrite append_assoc, Ha, Hb.
Qed.

Lemma transparent_literal_then (needle lit chunk : string) :
  literal_skips needle lit = true ->
  transparent needle chunk -> transparent needle (lit ++ chunk).
Proof. intros Hlit. apply transparent_app. now apply literal_skips_sound. Qed.

Lemma transparent_field_then (needle field lit chunk : string) :
  contains needle field = false ->
  no_overlap needle lit = true ->
  literal_skips needle lit = true ->
  transparent needle chunk ->
  transparent needle (field ++ lit ++ chunk).
Proof.
  intros Hfield Hover Hlit Hchunk text.
  rewrite !append_assoc, field_skips by assumption.
  rewrite <- append_assoc.
  now apply transparent_app; [apply literal_skips_sound|].
Qed.

Lemma transparent_field_last (needle field lit : string) :
  contains needle field = false ->
  no_overlap needle lit = true ->
  literal_skips needle lit = true ->
  transparent needle (field ++ lit).
Proof.
  intros Hfield Hover Hlit.
  rewrite <- (append_nil_r lit).
  apply transparent_field_then; auto using transparent_nil.
Qed.

Lemma transparent_clean (needle chunk : string) :
  needle <> "" -> transparent needle chunk -> contains needle chunk = false.
Proof.
  intros Hneedle Hchunk.
  rewrite <- (append_nil_r chunk), Hchunk.
  destruct needle; [contradiction | reflexivity].
Qed.

Section DocFacts.

Context `{Collaborators}.

(** ** LIST values *)

(** Past the first index every enabled entry is preceded by a separator. *)
Lemma list_loop_later (value : list Entry.t) (i : nat) (result : string) :
  i <> 0 ->
  list_loop value i result
  = result ++ pieces (map (fun e => "," ++ entry_text e) (filter Entry.enabled value)).
Proof.
  revert i result.
  induction value as [|e value IH]; intros i result Hi; simpl.
  - now rewrite append_nil_r.
  - destruct (Entry.enabled e); simpl.
    + rewrite IH by lia.
      destruct i as [|i]; [contradiction|]. simpl.
      now rewrite !append_assoc.
    + now rewrite IH by lia.
Qed.

Lemma pieces_cons (piece : string) (l : list string) :
  pieces (piece :: l) = piece ++ pieces l.
Proof. reflexivity. Qed.

Lemma pieces_separated (tokens : list string) (token : string) :
  token ++ pieces (map (fun t => "," ++ t) tokens) = String.concat "," (token :: tokens).
Proof.
  revert token.
  induction tokens as [|t tokens IH]; intro token.
  - apply append_nil_r.
  - change (String.concat "," (token :: t :: tokens))
      with (token ++ "," ++ String.concat "," (t :: tokens)).
    rewrite <- IH. reflexivity.
Qed.

(** When the first entry is enabled the loop joins the enabled entries. *)
Lemma list_loop_first_enabled (e : Entry.t) (value : list Entry.t) :
  Entry.enabled e = true ->
  list_loop (e :: value) 0 ""
  = String.concat "," (map entry_text (filter Entry.enabled (e :: value))).
Proof.
  intro He. cbn [list_loop filter]. rewrite He. cbn [negb Nat.eqb map].
  rewrite list_loop_later by lia.
  rewrite <- pieces_separated, map_map. reflexivity.
Qed.

(** When it is disabled, the first enabled entry still gets its separator. *)
Lemma list_loop_first_disabled (e : Entry.t) (value : list Entry.t) :
  Entry.enabled e = false ->
  list_loop (e :: value) 0 ""
  = pieces (map (fun e => "," ++ entry_text e) (filter Entry.enabled value)).
Proof.
  intro He. cbn [list_loop]. rewrite He. cbn [negb].
  now rewrite list_loop_later by lia.
Qed.

(** C1 fails whenever the first entry of a LIST value is disabled and a
    later one is enabled: the meta formatter and the data formatter then
    return a separator followed by the comma-joined enabled entries, so
    that the text starts with a separator and has one more field than
    there are enabled entries. *)
Theorem list_first_disabled_leading_separator
  (e : Entry.t) (value : list Entry.t)
  (meta : SettingMeta) (layer : Layer.t) (data : Data.t) :
  Entry.enabled e = false ->
  filter Entry.enabled value <> [] ->
  Meta.value meta = MetaList (e :: value) ->
  Data.value data = DataList (e :: value) ->
  GetProcessedDefaultValue meta
  = "," ++ String.concat "," (map entry_text (filter Entry.enabled (e :: value)))
  /\ GetProcessedValue layer data
     = Some ("," ++ String.concat ","
                      (map entry_text (filter Entry.enabled (e :: value)))).
Proof.
  intros He Hsome Hmeta Hdata.
  unfold GetProcessedDefaultValue, GetProcessedValue.
  rewrite Hmeta, Hdata, list_loop_first_disabled by exact He.
  cbn [filter]. rewrite He.
  destruct (filter Entry.enabled value) as [|e' enabled']; [contradiction|].
  cbn [map]. rewrite pieces_cons, append_assoc.
  rewrite <- (map_map entry_text (fun token => "," ++ token)), pieces_separated.
  split; reflexivity.
Qed.

(** ** FLOAT values *)

(** C2: a FLOAT data whose value the meta found for its key declares
    invalid is formatted as the default value of that meta, and the
    formatter does return this text. *)
Theorem float_invalid_value_formats_default
  (layer : Layer.t) (data : Data.t) (value : float)
  (meta : SettingMeta) (meta_float : MetaFloat.t) :
  Data.value data = DataFloat value ->
  FindSettingMeta (Layer.settings layer) (Data.key data) = Some meta ->
  Meta.value meta = MetaFloat meta_float ->
  IsValid meta_float value = false ->
  GetProcessedValue layer data = Some (GetProcessedDefaultValue meta).
Proof.
  intros Hdata Hfind Hmeta Hinvalid.
  unfold GetProcessedValue, GetProcessedDefaultValue, FindSettingMetaFloat.
  rewrite Hdata, Hfind, Hmeta, Hinvalid. reflexivity.
Qed.

(** ** The settings documentation URL *)

(** C6: above 1.7.176 the URL is the SDK template filled with the text of
    the API version, otherwise it is the URL of the master branch. *)
Theorem doc_url_by_api_version (layer : Layer.t) :
  (Version.gtb (Layer.api_version layer) (Version.Make 1 7 176) = true ->
   GetLayerSettingsDocURL layer
   = "https://github.com/LunarG/VulkanTools/tree/sdk-"
     ++ Version.str (Layer.api_version layer)
     ++ ".0/vkconfig#vulkan-layers-settings")
  /\ (Version.gtb (Layer.api_version layer) (Version.Make 1 7 176) = false ->
      GetLayerSettingsDocURL layer
      = "https://github.com/LunarG/VulkanTools/tree/master/vkconfig#vulkan-layers-settings").
Proof.
  unfold GetLayerSettingsDocURL.
  split; intros ->; reflexivity.
Qed.

(** [Version.gtb] is the strict lexicographic order on the triples. *)
Lemma Version_gtb_spec (a b : Version.t) :
  Version.gtb a b = true
  <-> (Version.major b < Version.major a
       \/ (Version.major a = Version.major b
           /\ (Version.minor b < Version.minor a
               \/ (Version.minor a = Version.minor b
                   /\ Version.patch b < Version.patch a))))%Z.
Proof.
  unfold Version.gtb.
  rewrite !orb_true_iff, !andb_true_iff, !orb_true_iff, !andb_true_iff,
    !Z.ltb_lt, !Z.eqb_eq.
  tauto.
Qed.

(** ** Platform tokens *)

Lemma platforms_loop_joined (platforms : list string) (i n : nat) (text : string) :
  n = i + List.length platforms ->
  platforms_loop platforms i n text
  = text ++ String.concat ", " (map platform_span platforms).
Proof.
  revert i text.
  induction platforms as [|name platforms IH]; intros i text Hn.
  - simpl. now rewrite append_nil_r.
  - cbn [platforms_loop]. destruct platforms as [|name' platforms].
    + simpl in Hn. replace (i <? n - 1)%nat with false
        by (symmetry; apply Nat.ltb_ge; lia).
      reflexivity.
    + cbn [List.length] in Hn. replace (i <? n - 1)%nat with true
        by (symmetry; apply Nat.ltb_lt; lia).
      rewrite IH by (cbn [List.length]; lia).
      cbn [map String.concat]. now rewrite !append_assoc.
Qed.




(** ** The two traversals of the setting tree *)

Lemma pieces_app (a b : list string) : pieces (a ++ b) = pieces a ++ pieces b.
Proof.
  induction a as [|x a IH]; simpl; [reflexivity|].
  now rewrite IH, append_assoc.
Qed.

Lemma enum_values_loop_rows (s : SettingMeta) (enum_values : list EnumValue.t)
  (text : string) :
  enum_values_loop s enum_values text
  = text ++ pieces (map (enum_value_row s) (filter shown_value enum_values)).
Proof.
  revert text.
  induction enum_values as [|value enum_values IH]; intro text.
  - simpl. now rewrite append_nil_r.
  - cbn [enum_values_loop filter]. unfold shown_value at 1.
    destruct (SettingView_eqb (EnumValue.view value) SETTING_VIEW_HIDDEN);
      cbn [negb]; rewrite IH; [reflexivity|].
    cbn [map pieces fold_right]. now rewrite append_assoc.
Qed.

Lemma WriteEnumValues_table (s : SettingMeta) (text : string) :
  WriteEnumValues s text = text ++ enum_table s.
Proof.
  unfold WriteEnumValues, enum_table.
  destruct (IsEnum (Meta.type s)).
  - rewrite enum_values_loop_rows. now rewrite !append_assoc.
  - now rewrite append_nil_r.
Qed.

Lemma flatten_cons (s : SettingMeta) (settings : SettingMetaSet) :
  flatten (SetCons s settings)
  = ((s :: flatten (Meta.children s)) ++ flatten settings)%list.
Proof. reflexivity. Qed.

Lemma WriteSettingsOverview_rows (layer : Layer.t) (settings : SettingMetaSet) :
  forall text,
    WriteSettingsOverview layer settings text
    = text ++ pieces (map (overview_row layer) (filter emitted (flatten settings))).
Proof.
  induction settings using SettingMetaSet_meta_ind
    with (P := fun s => forall text,
                 WriteSettingsOverview layer (Meta.children s) text
                 = text ++ pieces (map (overview_row layer)
                                     (filter emitted (flatten (Meta.children s))))).
  - exact IHsettings.
  - intro text. simpl. now rewrite append_nil_r.
  - intro text. cbn [WriteSettingsOverview]. rewrite IHsettings0, IHsettings.
    rewrite flatten_cons, filter_app, map_app, pieces_app.
    cbn [filter]. destruct (emitted first).
    + cbn [map pieces fold_right]. now rewrite !append_assoc.
    + now rewrite !append_assoc.
Qed.

Lemma WriteSettingsDetails_sections (layer : Layer.t) (settings : SettingMetaSet) :
  forall text,
    WriteSettingsDetails layer settings text
    = text ++ pieces (map (detail_section layer) (filter emitted (flatten settings))).
Proof.
  induction settings using SettingMetaSet_meta_ind
    with (P := fun s => forall text,
                 WriteSettingsDetails layer (Meta.children s) text
                 = text ++ pieces (map (detail_section layer)
                                     (filter emitted (flatten (Meta.children s))))).
  - exact IHsettings.
  - intro text. simpl. now rewrite append_nil_r.
  - intro text. cbn [WriteSettingsDetails]. rewrite IHsettings0, IHsettings.
    rewrite flatten_cons, filter_app, map_app, pieces_app.
    cbn [filter]. destruct (emitted first).
    + rewrite WriteEnumValues_table.
      cbn [map pieces fold_right].
      change (detail_section layer first)
        with (detail_head layer first ++ enum_table first).
      now rewrite !append_assoc.
    + now rewrite !append_assoc.
Qed.

Lemma In_flatten_InTree (s : SettingMeta) (settings : SettingMetaSet) :
  In s (flatten settings) -> InTree s settings.
Proof.
  induction settings using SettingMetaSet_meta_ind
    with (P := fun parent =>
                 In s (flatten (Meta.children parent)) ->
                 InTree s (Meta.children parent)).
  - exact IHsettings.
  - intros [].
  - rewrite flatten_cons. intro Hin.
    apply in_app_or in Hin. destruct Hin as [[-> | Hin] | Hin].
    + apply InTree_first.
    + apply InTree_child. now apply IHsettings.
    + apply InTree_rest. now apply IHsettings0.
Qed.

Lemma InTree_In_flatten (s : SettingMeta) (settings : SettingMetaSet) :
  InTree s settings -> In s (flatten settings).
Proof.
  induction 1 as [settings' | parent settings' _ IH | other settings' _ IH];
    rewrite flatten_cons; apply in_or_app.
  - left. now left.
  - left. now right.
  - now right.
Qed.

Lemma emitted_spec (s : SettingMeta) :
  emitted s = true
  <-> Meta.type s <> SETTING_GROUP /\ Meta.view s <> SETTING_VIEW_HIDDEN.
Proof.
  unfold emitted. rewrite andb_true_iff, !negb_true_iff.
  rewrite <- SettingType_eqb_eq, <- SettingView_eqb_eq, !not_true_iff_false.
  reflexivity.
Qed.

(** ** The table of enum values *)

(** ** The list of layer properties *)

Lemma WriteLayerProperties_lines (layer : Layer.t) (text : string) :
  WriteLayerProperties layer text
  = text ++ properties_heading ++ ("<ul>" ++ nl)
    ++ api_version_line layer
    ++ implementation_version_line layer
    ++ manifest_line layer
    ++ file_format_line layer
    ++ binary_path_line layer
    ++ (tab ++ "</ul></li>" ++ nl)
    ++ (if (Layer.platforms layer =? 0)%Z then "" else platforms_line layer)
    ++ (if StatusType_eqb (Layer.status layer) STATUS_STABLE then ""
        else status_line layer)
    ++ (if Empty (Layer.settings layer) then "" else settings_count_line layer)
    ++ (match Layer.presets layer with
        | [] => ""
        | _ :: _ => presets_count_line layer
        end)
    ++ ("</ul>" ++ nl).
Proof.
  unfold WriteLayerProperties, properties_heading.
  destruct (Layer.platforms layer =? 0)%Z,
    (StatusType_eqb (Layer.status layer) STATUS_STABLE),
    (Empty (Layer.settings layer)), (Layer.presets layer);
    cbn [negb]; rewrite !append_assoc; reflexivity.
Qed.



(** ** Presets *)

Lemma resolves_formats (layer : Layer.t) (data : Data.t) :
  resolves layer data ->
  exists meta value,
    FindSettingMeta (Layer.settings layer) (Data.key data) = Some meta
    /\ GetProcessedValue layer data = Some value
    /\ preset_entry layer data = preset_value_line meta value.
Proof.
  intros ((meta & Hfind) & Hfloat).
  assert (Hvalue : exists value, GetProcessedValue layer data = Some value).
  { unfold GetProcessedValue.
    destruct (Data.value data) as [| | | | | | | |value| | | |];
      try (eexists; reflexivity).
    destruct (Hfloat value eq_refl) as (meta_float & ->).
    destruct (IsValid meta_float value); eexists; reflexivity. }
  destruct Hvalue as (value & Hvalue).
  exists meta, value. unfold preset_entry. now rewrite Hfind, Hvalue.
Qed.

Lemma preset_settings_loop_entries (layer : Layer.t) (settings : list Data.t) :
  (forall data, In data settings -> resolves layer data) ->
  forall text,
    preset_settings_loop layer settings text
    = Some (text ++ pieces (map (preset_entry layer) settings)).
Proof.
  induction settings as [|data settings IH]; intros Hall text.
  - simpl. now rewrite append_nil_r.
  - destruct (resolves_formats layer data (Hall data (or_introl eq_refl)))
      as (meta & value & Hfind & Hvalue & Hentry).
    cbn [preset_settings_loop map pieces fold_right].
    rewrite Hfind, Hvalue, Hentry.
    rewrite IH by (intros d Hd; apply Hall; now right).
    now rewrite append_assoc.
Qed.

Lemma presets_loop_sections (layer : Layer.t) (presets : list Preset.t) :
  (forall preset data,
      In preset presets -> In data (Preset.settings preset) -> resolves layer data) ->
  forall text,
    presets_loop layer presets text
    = Some (text ++ pieces (map (preset_section layer) presets)).
Proof.
  induction presets as [|preset presets IH]; intros Hall text.
  - simpl. now rewrite append_nil_r.
  - cbn [presets_loop map pieces fold_right].
    rewrite preset_settings_loop_entries
      by (intros d Hd; apply (Hall preset d); [now left | exact Hd]).
    rewrite IH by (intros p d Hp Hd; apply (Hall p d); [now right | exact Hd]).
    unfold preset_section. now rewrite !append_assoc.
Qed.

(** ** The count of settings and the rows of the overview *)

Lemma Size_top_level (settings : SettingMetaSet) :
  Size settings = List.length (top_level settings).
Proof. induction settings as [|s settings IH]; simpl; congruence. Qed.

Lemma overview_rows_length (layer : Layer.t) (settings : SettingMetaSet) :
  List.length (overview_rows layer settings)
  = List.length (filter emitted (flatten settings)).
Proof. unfold overview_rows. apply length_map. Qed.

Lemma emitted_cons_length (s : SettingMeta) (settings : SettingMetaSet) :
  List.length (filter emitted (flatten (SetCons s settings)))
  = (if emitted s then 1 else 0)
    + List.length (filter emitted (flatten (Meta.children s)))
    + List.length (filter emitted (flatten settings)).
Proof.
  rewrite flatten_cons, filter_app, length_app. cbn [filter].
  destruct (emitted s); simpl; lia.
Qed.

Lemma Size_le_emitted (settings : SettingMetaSet) :
  (forall s, In s (top_level settings) -> emitted s = true) ->
  Size settings <= List.length (filter emitted (flatten settings)).
Proof.
  induction settings as [|s settings IH]; intro Hall; [simpl; lia|].
  rewrite emitted_cons_length, (Hall s) by now left.
  cbn [Size]. assert (Size settings <= List.length (filter emitted (flatten settings)))
    by (apply IH; intros s' Hs'; apply Hall; now right).
  lia.
Qed.

Lemma Size_lt_emitted (settings : SettingMetaSet) :
  (forall s, In s (top_level settings) -> emitted s = true) ->
  (exists parent child,
      In parent (top_level settings)
      /\ InTree child (Meta.children parent) /\ emitted child = true) ->
  Size settings < List.length (filter emitted (flatten settings)).
Proof.
  induction settings as [|s settings IH]; intros Hall (parent & child & Hp & Hc & He).
  - destruct Hp.
  - rewrite emitted_cons_length, (Hall s) by now left.
    cbn [Size].
    assert (Size settings <= List.length (filter emitted (flatten settings)))
      by (apply Size_le_emitted; intros s' Hs'; apply Hall; now right).
    destruct Hp as [-> | Hp].
    + assert (Hin : In child (filter emitted (flatten (Meta.children parent))))
        by (apply filter_In; split; [now apply InTree_In_flatten | exact He]).
      destruct (filter emitted (flatten (Meta.children parent))); [destruct Hin|].
      simpl. lia.
    + assert (Size settings < List.length (filter emitted (flatten settings))).
      { apply IH; [intros s' Hs'; apply Hall; now right|].
        exists parent, child. auto. }
      lia.
Qed.

(** C10, as the code has it: the count that is printed is the number of
    entries of the root set; the overview has one row per setting of the
    tree that is neither a group nor hidden; the count is below the number
    of rows when every entry of the root set has a row and some child of an
    entry has one. *)
Theorem settings_count_and_overview_rows (layer : Layer.t) :
  settings_count_line layer
  = tab ++ "<li><a href=" ++ dq ++ "#settings" ++ dq ++ ">Number of Layer Settings: "
    ++ format_d (Z.of_nat (List.length (top_level (Layer.settings layer))))
    ++ "</a></li>" ++ nl
  /\ WriteSettingsOverview layer (Layer.settings layer) ""
     = pieces (overview_rows layer (Layer.settings layer))
  /\ List.length (overview_rows layer (Layer.settings layer))
     = List.length (filter emitted (flatten (Layer.settings layer)))
  /\ ((forall s, In s (top_level (Layer.settings layer)) -> emitted s = true) ->
      (exists parent child,
          In parent (top_level (Layer.settings layer))
          /\ InTree child (Meta.children parent) /\ emitted child = true) ->
      List.length (top_level (Layer.settings layer))
      < List.length (overview_rows layer (Layer.settings layer))).
Proof.
  repeat split.
  - unfold settings_count_line. now rewrite Size_top_level.
  - now rewrite WriteSettingsOverview_rows.
  - apply overview_rows_length.
  - intros Hall Hchild.
    rewrite overview_rows_length, <- Size_top_level.
    now apply Size_lt_emitted.
Qed.

End DocFacts.

(** ** The document without settings and presets *)

Section Sections.

Context `{Collaborators}.

Variable layer : Layer.t.
Variable title : string.
Hypothesis title_of_section : In title section_titles.
Hypothesis fields_clean :
  forall field, In field (layer_texts layer) -> contains title field = false.

Ltac by_title :=
  let Ht := fresh "Ht" in
  pose proof title_of_section as Ht;
  unfold section_titles in Ht; cbn [In] in Ht;
  destruct Ht as [Ht | [Ht | [Ht | []]]];
  pose proof fields_clean as Hclean; clear fields_clean; subst title.

Ltac literal := vm_compute; reflexivity.

Ltac clean_field Hclean :=
  solve [ apply Hclean; unfold layer_texts; cbn [In app];
          repeat first [left; reflexivity | right] ].

Ltac skim Hclean :=
  repeat first
    [ apply transparent_nil
    | apply transparent_literal_then; [literal|]
    | apply literal_skips_sound; literal
    | apply transparent_field_then; [clean_field Hclean | literal | literal |]
    | apply transparent_field_last; [clean_field Hclean | literal | literal] ].

Lemma doc_shell_transparent : transparent title doc_shell.
Proof. by_title; apply literal_skips_sound; literal. Qed.

Lemma platform_spans_transparent (names : list string) :
  (forall name, In name names -> contains title name = false) ->
  transparent title (String.concat ", " (map platform_span names)).
Proof.
  intro Hnames.
  assert (Hspan : forall name, In name names -> transparent title (platform_span name)).
  { intros name Hname. pose proof (Hnames name Hname) as Hc. clear Hnames.
    unfold platform_span. by_title;
      repeat first
        [ apply transparent_literal_then; [literal|]
        | apply transparent_field_last; [exact Hc | literal | literal] ]. }
  clear Hnames.
  induction names as [|name names IH]; [apply transparent_nil|].
  destruct names as [|name' names].
  - apply Hspan. now left.
  - change (String.concat ", " (map platform_span (name :: name' :: names)))
      with (platform_span name ++ ", "
            ++ String.concat ", " (map platform_span (name' :: names))).
    apply transparent_app; [apply Hspan; now left|].
    apply transparent_app.
    + clear Hspan IH. by_title; apply literal_skips_sound; literal.
    + apply IH. intros n Hn. apply Hspan. now right.
Qed.

Lemma BuildPlatformsHTML_transparent :
  transparent title (BuildPlatformsHTML (Layer.platforms layer)).
Proof.
  unfold BuildPlatformsHTML. rewrite platforms_loop_joined by reflexivity.
  cbn [append]. apply platform_spans_transparent.
  intros name Hname. apply fields_clean. unfold layer_texts.
  apply in_or_app. now right.
Qed.

Lemma WriteHeader_transparent (text : string) :
  exists chunk, WriteHeader layer text = text ++ chunk /\ transparent title chunk.
Proof.
  unfold WriteHeader.
  destruct (Layer.url layer =? "")%string,
    (StatusType_eqb (Layer.status layer) STATUS_STABLE),
    (Layer.description layer =? "")%string,
    (Layer.introduction layer =? "")%string; cbn [negb];
    (eexists; split; [rewrite !append_assoc; reflexivity|]);
    by_title; skim Hclean.
Qed.

Lemma WriteLayerProperties_transparent (text : string) :
  Layer.settings layer = SetNil -> Layer.presets layer = [] ->
  exists chunk, WriteLayerProperties layer text = text ++ chunk /\ transparent title chunk.
Proof.
  intros Hsettings Hpresets.
  rewrite WriteLayerProperties_lines, Hsettings, Hpresets. cbn [Empty].
  eexists. split; [reflexivity|].
  pose proof BuildPlatformsHTML_transparent as Hplatforms.
  unfold properties_heading, api_version_line, implementation_version_line,
    manifest_line, file_format_line, binary_path_line, platforms_line, status_line.
  destruct (Layer.platforms layer =? 0)%Z,
    (StatusType_eqb (Layer.status layer) STATUS_STABLE);
    rewrite !append_assoc; by_title;
    repeat first
      [ progress skim Hclean
      | apply transparent_app; [exact Hplatforms|] ].
Qed.

Lemma WriteVisit_transparent (text : string) :
  exists chunk, WriteVisit layer text = text ++ chunk /\ transparent title chunk.
Proof.
  unfold WriteVisit.
  destruct (Layer.url layer =? "")%string; cbn [negb].
  - exists "". split; [now rewrite append_nil_r | apply transparent_nil].
  - eexists. split; [reflexivity|]. by_title; skim Hclean.
Qed.

(** Without settings and presets the document is the shell, the header, the
    properties, the visit line and the closing tags. *)
Lemma ExportHtmlDoc_without_sections :
  Layer.settings layer = SetNil -> Layer.presets layer = [] ->
  ExportHtmlDoc layer
  = Some (WriteVisit layer (WriteLayerProperties layer (WriteHeader layer doc_shell))
          ++ ("</body>" ++ nl) ++ ("</html>" ++ nl)).
Proof.
  intros Hsettings Hpresets.
  unfold ExportHtmlDoc, WriteSettings, WritePresets.
  rewrite Hsettings, Hpresets. cbn [Empty negb append].
  now rewrite append_assoc.
Qed.

Lemma document_without_sections_clean :
  Layer.settings layer = SetNil -> Layer.presets layer = [] ->
  contains title
    (WriteVisit layer (WriteLayerProperties layer (WriteHeader layer doc_shell))
     ++ ("</body>" ++ nl) ++ ("</html>" ++ nl)) = false.
Proof.
  intros Hsettings Hpresets.
  destruct (WriteHeader_transparent doc_shell) as (header & -> & Hheader).
  destruct (WriteLayerProperties_transparent (doc_shell ++ header) Hsettings Hpresets)
    as (properties & -> & Hproperties).
  destruct (WriteVisit_transparent ((doc_shell ++ header) ++ properties))
    as (visit & -> & Hvisit).
  apply transparent_clean.
  - pose proof title_of_section as Ht. unfold section_titles in Ht. cbn [In] in Ht.
    destruct Ht as [<- | [<- | [<- | []]]]; discriminate.
  - apply transparent_app;
      [ apply transparent_app;
        [ apply transparent_app;
          [ apply transparent_app; [apply doc_shell_transparent | exact Hheader]
          | exact Hproperties ]
        | exact Hvisit ]
      | ].
    pose proof title_of_section as Ht. unfold section_titles in Ht. cbn [In] in Ht.
    destruct Ht as [<- | [<- | [<- | []]]]; apply literal_skips_sound; literal.
Qed.

End Sections.

(** C5: the document of a layer without settings and without presets is
    the shell, the header, the properties, the visit line and the closing
    tags; none of the three section titles occurs in it, as soon as none
    occurs in a text that the layer itself contributes. *)
Theorem sections_absent_without_settings_and_presets
  `{Collaborators} (layer : Layer.t) :
  Layer.settings layer = SetNil ->
  Layer.presets layer = [] ->
  exists text,
    ExportHtmlDoc layer = Some text
    /\ text
       = WriteVisit layer (WriteLayerProperties layer (WriteHeader layer doc_shell))
         ++ ("</body>" ++ nl) ++ ("</html>" ++ nl)
    /\ (forall title,
          In title section_titles ->
          (forall field, In field (layer_texts layer) -> contains title field = false) ->
          contains title text = false).
Proof.
  intros Hsettings Hpresets.
  eexists. split; [now apply ExportHtmlDoc_without_sections|].
  split; [reflexivity|].
  intros title Htitle Hfields.
  now apply document_without_sections_clean.
Qed.

(** * Further properties of the generator *)

(** ** Texts and their fields *)

Lemma starts_with_app_l (needle a rest : string) :
  starts_with needle a = true -> starts_with needle (a ++ rest) = true.
Proof.
  revert a.
  induction needle as [|x needle IH]; intros [|y a] Hstarts; try discriminate;
    try reflexivity.
  cbn in Hstarts |- *. apply andb_prop in Hstarts as [Hxy Hstarts].
  now rewrite Hxy, (IH a Hstarts).
Qed.

Lemma starts_with_refl (text : string) : starts_with text text = true.
Proof.
  induction text as [|c text IH]; [reflexivity|].
  cbn. now rewrite Ascii.eqb_refl, IH.
Qed.

Lemma contains_starts (needle text : string) :
  starts_with needle text = true -> contains needle text = true.
Proof. intro Hstarts. destruct text; cbn [contains]; now rewrite Hstarts. Qed.

Lemma contains_app_l (needle a rest : string) :
  contains needle a = true -> contains needle (a ++ rest) = true.
Proof.
  induction a as [|c a IH]; intro Hin.
  - destruct needle; [|discriminate]. now apply contains_starts.
  - cbn [contains] in Hin. apply orb_prop in Hin as [Hhere | Hlater].
    + apply contains_starts. now apply starts_with_app_l.
    + cbn [append contains]. rewrite (IH Hlater). apply orb_true_r.
Qed.

(** A text occurs in what is written around it. *)
Lemma contains_between (needle before after : string) :
  contains needle (before ++ needle ++ after) = true.
Proof.
  apply contains_app_r, contains_app_l, contains_starts, starts_with_refl.
Qed.

Lemma pieces_map_In {A : Type} (f : A -> string) (l : list A) (x : A) :
  In x l -> exists before after, pieces (map f l) = before ++ f x ++ after.
Proof.
  induction l as [|y l IH]; [intros []|]. intros [-> | Hin].
  - exists "", (pieces (map f l)). reflexivity.
  - destruct (IH Hin) as (before & after & Heq).
    exists (f y ++ before), after.
    cbn [map]. now rewrite pieces_cons, Heq, append_assoc.
Qed.

Lemma split_on_app (sep : ascii) (a b : string) :
  has_char sep a = false ->
  split_on sep (a ++ String sep b) = a :: split_on sep b.
Proof.
  induction a as [|c a IH]; intro Hfree.
  - cbn. now rewrite Ascii.eqb_refl.
  - cbn in Hfree |- *. apply orb_false_elim in Hfree as [Hc Hfree].
    now rewrite Hc, (IH Hfree).
Qed.

Lemma split_on_free (sep : ascii) (a : string) :
  has_char sep a = false -> split_on sep a = [a].
Proof.
  induction a as [|c a IH]; intro Hfree; [reflexivity|].
  cbn in Hfree |- *. apply orb_false_elim in Hfree as [Hc Hfree].
  now rewrite Hc, (IH Hfree).
Qed.

(** Splitting a join at its separator gives the joined texts back. *)
Lemma split_on_join (sep : ascii) (tokens : list string) :
  tokens <> [] ->
  (forall token, In token tokens -> has_char sep token = false) ->
  split_on sep (String.concat (String sep "") tokens) = tokens.
Proof.
  induction tokens as [|token tokens IH]; intros Hsome Hfree; [contradiction|].
  destruct tokens as [|token' tokens].
  - apply split_on_free, Hfree. now left.
  - change (String.concat (String sep "") (token :: token' :: tokens))
      with (token ++ String sep (String.concat (String sep "") (token' :: tokens))).
    rewrite split_on_app by (apply Hfree; now left).
    rewrite IH; [reflexivity | discriminate |].
    intros t Ht. apply Hfree. now right.
Qed.

Lemma filter_complement_length {A : Type} (f : A -> bool) (l : list A) :
  List.length (filter f l) + List.length (filter (fun x => negb (f x)) l)
  = List.length l.
Proof.
  induction l as [|x l IH]; [reflexivity|].
  cbn [filter]. destruct (f x); cbn [negb List.length]; lia.
Qed.

Lemma starts_with_split (needle text : string) :
  starts_with needle text = true -> exists after, text = needle ++ after.
Proof.
  revert text.
  induction needle as [|x needle IH]; intros text Hstarts; [now exists text|].
  destruct text as [|y text]; [discriminate|].
  cbn in Hstarts. apply andb_prop in Hstarts as [Hxy Hstarts].
  apply Ascii.eqb_eq in Hxy as ->.
  destruct (IH text Hstarts) as (after & ->). now exists after.
Qed.

Lemma contains_split (needle text : string) :
  contains needle text = true ->
  exists before after, text = before ++ needle ++ after.
Proof.
  induction text as [|c text IH]; intro Hin.
  - cbn [contains] in Hin. rewrite orb_false_r in Hin.
    destruct (starts_with_split _ _ Hin) as (after & Hafter).
    now exists "", after.
  - cbn [contains] in Hin. apply orb_prop in Hin as [Hhere | Hlater].
    + destruct (starts_with_split _ _ Hhere) as (after & Hafter).
      now exists "", after.
    + destruct (IH Hlater) as (before & after & ->).
      now exists (String c before), after.
Qed.

(** What occurs in a part of a text occurs in the text. *)
Lemma contains_trans (a b c : string) :
  contains a b = true -> contains b c = true -> contains a c = true.
Proof.
  intros Hab Hbc.
  destruct (contains_split _ _ Hab) as (b1 & b2 & ->).
  destruct (contains_split _ _ Hbc) as (c1 & c2 & ->).
  rewrite !append_assoc, <- (append_assoc c1 b1). apply contains_between.
Qed.

Lemma contains_at (needle text before after : string) :
  text = before ++ needle ++ after -> contains needle text = true.
Proof. intros ->. apply contains_between. Qed.

Section FormatterFacts.

Context `{Collaborators}.

(** ** FLAGS values *)

Lemma flags_loop_joined (value : list string) (i n : nat) (result : string) :
  n = i + List.length value ->
  flags_loop value i n result = result ++ String.concat "," value.
Proof.
  revert i result.
  induction value as [|token value IH]; intros i result Hn.
  - simpl. now rewrite append_nil_r.
  - cbn [flags_loop]. destruct value as [|token' value].
    + simpl in Hn. replace (i <? n - 1)%nat with false
        by (symmetry; apply Nat.ltb_ge; lia).
      reflexivity.
    + cbn [List.length] in Hn. replace (i <? n - 1)%nat with true
        by (symmetry; apply Nat.ltb_lt; lia).
      rewrite IH by (cbn [List.length]; lia).
      change (String.concat "," (token :: token' :: value))
        with (token ++ "," ++ String.concat "," (token' :: value)).
      now rewrite !append_assoc.
Qed.

(** A FLAGS value is formatted as all of its tokens, in their order, with
    one separator between two tokens and none before or after, by the meta
    formatter and by the data formatter alike. *)
Theorem flags_value_comma_joined
  (meta : SettingMeta) (layer : Layer.t) (data : Data.t)
  (enum_values : list EnumValue.t) (tokens : list string) :
  Meta.value meta = MetaFlags enum_values tokens ->
  Data.value data = DataFlags tokens ->
  GetProcessedDefaultValue meta = String.concat "," tokens
  /\ GetProcessedValue layer data = Some (String.concat "," tokens).
Proof.
  intros Hmeta Hdata.
  unfold GetProcessedDefaultValue, GetProcessedValue.
  rewrite Hmeta, Hdata, flags_loop_joined by reflexivity.
  split; reflexivity.
Qed.

(** The tokens of a FLAGS value are read back from its text: when there is
    a token and no token holds a comma, the fields of the text are the
    tokens. *)
Theorem flags_fields_are_tokens
  (meta : SettingMeta) (enum_values : list EnumValue.t) (tokens : list string) :
  Meta.value meta = MetaFlags enum_values tokens ->
  tokens <> [] ->
  (forall token, In token tokens -> has_char "," token = false) ->
  split_on "," (GetProcessedDefaultValue meta) = tokens.
Proof.
  intros Hmeta Hsome Hfree.
  unfold GetProcessedDefaultValue.
  rewrite Hmeta, flags_loop_joined by reflexivity.
  now apply (split_on_join ","%char).
Qed.

(** ** LIST values whose first entry is enabled, or that have none *)

(** When the first entry of a LIST value is enabled, both formatters give
    the comma-joined texts of the enabled entries. *)
Theorem list_first_enabled_comma_joined
  (e : Entry.t) (value : list Entry.t)
  (meta : SettingMeta) (layer : Layer.t) (data : Data.t) :
  Entry.enabled e = true ->
  Meta.value meta = MetaList (e :: value) ->
  Data.value data = DataList (e :: value) ->
  GetProcessedDefaultValue meta
  = String.concat "," (map entry_text (filter Entry.enabled (e :: value)))
  /\ GetProcessedValue layer data
     = Some (String.concat "," (map entry_text (filter Entry.enabled (e :: value)))).
Proof.
  intros He Hmeta Hdata.
  unfold GetProcessedDefaultValue, GetProcessedValue.
  rewrite Hmeta, Hdata, list_loop_first_enabled by exact He.
  split; reflexivity.
Qed.

Lemma list_loop_none_enabled (value : list Entry.t) (i : nat) (result : string) :
  filter Entry.enabled value = [] -> list_loop value i result = result.
Proof.
  revert i.
  induction value as [|e value IH]; intros i Hnone; [reflexivity|].
  cbn [filter list_loop] in Hnone |- *.
  destruct (Entry.enabled e); [discriminate|].
  cbn [negb]. now apply IH.
Qed.

(** A LIST value without enabled entry, the empty one among them, is
    formatted as the empty text. *)
Theorem list_without_enabled_entry_empty
  (value : list Entry.t) (meta : SettingMeta) (layer : Layer.t) (data : Data.t) :
  filter Entry.enabled value = [] ->
  Meta.value meta = MetaList value ->
  Data.value data = DataList value ->
  GetProcessedDefaultValue meta = ""
  /\ GetProcessedValue layer data = Some "".
Proof.
  intros Hnone Hmeta Hdata.
  unfold GetProcessedDefaultValue, GetProcessedValue.
  rewrite Hmeta, Hdata, list_loop_none_enabled by exact Hnone.
  split; reflexivity.
Qed.

(** When the first entry of a LIST value is enabled and no text of an
    enabled entry holds a comma, the fields of the formatted text are the
    texts of the enabled entries: with [k] disabled entries among [n] the
    text has [n - k] fields. *)
Theorem list_fields_are_enabled_entries
  (e : Entry.t) (value : list Entry.t) (meta : SettingMeta) :
  Entry.enabled e = true ->
  (forall e', In e' (e :: value) -> Entry.enabled e' = true ->
              has_char "," (entry_text e') = false) ->
  Meta.value meta = MetaList (e :: value) ->
  split_on "," (GetProcessedDefaultValue meta)
  = map entry_text (filter Entry.enabled (e :: value))
  /\ List.length (split_on "," (GetProcessedDefaultValue meta))
     + List.length (filter (fun e' => negb (Entry.enabled e')) (e :: value))
     = List.length (e :: value).
Proof.
  intros He Hfree Hmeta.
  assert (Hfields : split_on "," (GetProcessedDefaultValue meta)
                    = map entry_text (filter Entry.enabled (e :: value))).
  { unfold GetProcessedDefaultValue.
    rewrite Hmeta, list_loop_first_enabled by exact He.
    apply (split_on_join ","%char).
    - cbn [filter]. rewrite He. discriminate.
    - intros token Htoken. apply in_map_iff in Htoken as (e' & <- & He').
      apply filter_In in He' as [Hin Hen]. now apply Hfree. }
  split; [exact Hfields|].
  rewrite Hfields, length_map. apply filter_complement_length.
Qed.

(** ** Data against meta *)

(** A data that holds the default value of the meta found for its key is
    formatted as that default value, whatever the type. *)
Theorem default_data_formats_as_default
  (layer : Layer.t) (data : Data.t) (meta : SettingMeta) :
  Data.value data = default_data (Meta.value meta) ->
  FindSettingMeta (Layer.settings layer) (Data.key data) = Some meta ->
  GetProcessedValue layer data = Some (GetProcessedDefaultValue meta).
Proof.
  intros Hdata Hfind.
  unfold GetProcessedValue, GetProcessedDefaultValue, FindSettingMetaFloat.
  rewrite Hdata, Hfind.
  destruct (Meta.value meta) as [| | | | | | |meta_float| | | | |];
    cbn [default_data]; try reflexivity.
  destruct (IsValid meta_float (MetaFloat.default_value meta_float)); reflexivity.
Qed.

(** The data formatter reads the meta tree for FLOAT data only: it returns
    a text exactly when the data is no FLOAT or the lookup of its key gives
    a float meta, and for a data that is no FLOAT the text is the same
    under every layer. *)
Theorem formatted_value_defined (layer : Layer.t) (data : Data.t) :
  ((exists text, GetProcessedValue layer data = Some text)
   <-> (forall value,
          Data.value data = DataFloat value ->
          exists meta_float,
            FindSettingMetaFloat (Layer.settings layer) (Data.key data)
            = Some meta_float))
  /\ (Data.type data <> SETTING_FLOAT ->
      forall layer', GetProcessedValue layer' data = GetProcessedValue layer data).
Proof.
  unfold GetProcessedValue, Data.type.
  destruct (Data.value data) as [| | | | | | | |value| | | |];
    (split; [split|]);
    try (intros; eexists; reflexivity);
    try (intros _ value' Hvalue; discriminate);
    try (intros _ layer'; reflexivity).
  - intros (text & Htext) value' _.
    destruct (FindSettingMetaFloat (Layer.settings layer) (Data.key data))
      as [meta_float|]; [now exists meta_float | discriminate].
  - intro Hfloat. destruct (Hfloat value eq_refl) as (meta_float & ->).
    destruct (IsValid meta_float value); eexists; reflexivity.
  - intro Hno. now contradiction Hno.
Qed.

End FormatterFacts.

Section DocumentFacts.

Context `{Collaborators}.

(** ** Writers extend the text they are given *)

Lemma WriteHeader_frame (layer : Layer.t) (text : string) :
  WriteHeader layer text = text ++ WriteHeader layer "".
Proof.
  unfold WriteHeader.
  destruct (Layer.url layer =? "")%string,
    (StatusType_eqb (Layer.status layer) STATUS_STABLE),
    (Layer.description layer =? "")%string,
    (Layer.introduction layer =? "")%string; cbn [negb];
    rewrite !append_assoc; reflexivity.
Qed.

Lemma WriteLayerProperties_frame (layer : Layer.t) (text : string) :
  WriteLayerProperties layer text = text ++ WriteLayerProperties layer "".
Proof.
  rewrite (WriteLayerProperties_lines layer text),
    (WriteLayerProperties_lines layer "").
  reflexivity.
Qed.

Lemma WriteVisit_frame (layer : Layer.t) (text : string) :
  WriteVisit layer text = text ++ WriteVisit layer "".
Proof.
  unfold WriteVisit.
  destruct (Layer.url layer =? "")%string; cbn [negb];
    [now rewrite append_nil_r | reflexivity].
Qed.

Lemma WriteSettings_part (layer : Layer.t) (text : string) :
  WriteSettings layer text = text ++ settings_part layer.
Proof.
  unfold WriteSettings, settings_part, overview_rows.
  destruct (Empty (Layer.settings layer)); cbn [negb].
  - now rewrite append_nil_r.
  - rewrite WriteSettingsDetails_sections, WriteSettingsOverview_rows.
    now rewrite !append_assoc.
Qed.

Lemma option_map_append (a b : string) (written : option string) :
  option_map (append a) (option_map (append b) written)
  = option_map (append (a ++ b)) written.
Proof. destruct written; cbn; [now rewrite append_assoc | reflexivity]. Qed.

Lemma preset_settings_loop_frame (layer : Layer.t) (settings : list Data.t) :
  forall text,
    preset_settings_loop layer settings text
    = option_map (append text) (preset_settings_loop layer settings "").
Proof.
  induction settings as [|data settings IH]; intro text.
  - cbn. now rewrite append_nil_r.
  - cbn [preset_settings_loop].
    destruct (FindSettingMeta (Layer.settings layer) (Data.key data)) as [meta|];
      [|reflexivity].
    destruct (GetProcessedValue layer data) as [value|]; [|reflexivity].
    rewrite (IH (text ++ preset_value_line meta value)),
      (IH ("" ++ preset_value_line meta value)).
    now rewrite option_map_append.
Qed.

Lemma presets_loop_frame (layer : Layer.t) (presets : list Preset.t) :
  forall text,
    presets_loop layer presets text
    = option_map (append text) (presets_loop layer presets "").
Proof.
  induction presets as [|preset presets IH]; intro text.
  - cbn. now rewrite append_nil_r.
  - cbn [presets_loop].
    rewrite (preset_settings_loop_frame layer (Preset.settings preset)
               ((((text ++ _) ++ _) ++ _) ++ _)).
    rewrite (preset_settings_loop_frame layer (Preset.settings preset)
               (((("" ++ _) ++ _) ++ _) ++ _)).
    destruct (preset_settings_loop layer (Preset.settings preset) "")
      as [entries|]; [|reflexivity].
    cbn [option_map].
    rewrite (IH ((_ ++ entries) ++ _)), (IH (((_ ++ _) ++ entries) ++ _)).
    rewrite option_map_append. f_equal.
    now rewrite !append_assoc.
Qed.

Lemma WritePresets_frame (layer : Layer.t) (text : string) :
  WritePresets layer text = option_map (append text) (WritePresets layer "").
Proof.
  unfold WritePresets.
  destruct (Layer.presets layer) as [|preset presets].
  - cbn. now rewrite append_nil_r.
  - rewrite (presets_loop_frame layer (preset :: presets) (text ++ presets_heading)),
      (presets_loop_frame layer (preset :: presets) ("" ++ presets_heading)).
    now rewrite option_map_append.
Qed.

(** No writer touches the text written before it: each one returns the
    text it is given followed by what it returns on the empty text, the
    preset writer when it returns at all. *)
Theorem writers_only_append (layer : Layer.t) (settings : SettingMetaSet) (text : string) :
  WriteHeader layer text = text ++ WriteHeader layer ""
  /\ WriteLayerProperties layer text = text ++ WriteLayerProperties layer ""
  /\ WriteVisit layer text = text ++ WriteVisit layer ""
  /\ WriteSettingsOverview layer settings text
     = text ++ WriteSettingsOverview layer settings ""
  /\ WriteSettingsDetails layer settings text
     = text ++ WriteSettingsDetails layer settings ""
  /\ WriteSettings layer text = text ++ WriteSettings layer ""
  /\ WritePresets layer text = option_map (append text) (WritePresets layer "").
Proof.
  repeat split.
  - apply WriteHeader_frame.
  - apply WriteLayerProperties_frame.
  - apply WriteVisit_frame.
  - now rewrite (WriteSettingsOverview_rows layer settings text),
      (WriteSettingsOverview_rows layer settings "").
  - now rewrite (WriteSettingsDetails_sections layer settings text),
      (WriteSettingsDetails_sections layer settings "").
  - now rewrite (WriteSettings_part layer text), (WriteSettings_part layer "").
  - apply WritePresets_frame.
Qed.

(** ** When the document is defined, and what it is made of *)

Lemma preset_settings_loop_resolves (layer : Layer.t) (settings : list Data.t) :
  forall text written,
    preset_settings_loop layer settings text = Some written ->
    forall data, In data settings -> resolves layer data.
Proof.
  induction settings as [|data settings IH]; intros text written Hloop d Hd;
    [destruct Hd|].
  cbn [preset_settings_loop] in Hloop.
  destruct (FindSettingMeta (Layer.settings layer) (Data.key data))
    as [meta|] eqn:Hfind; [|discriminate].
  destruct (GetProcessedValue layer data) as [value|] eqn:Hvalue; [|discriminate].
  destruct Hd as [<- | Hd]; [|now apply (IH _ _ Hloop)].
  split; [now exists meta|].
  intros v Hv. unfold GetProcessedValue in Hvalue. rewrite Hv in Hvalue.
  destruct (FindSettingMetaFloat (Layer.settings layer) (Data.key data))
    as [meta_float|]; [now exists meta_float | discriminate].
Qed.

Lemma presets_loop_resolves (layer : Layer.t) (presets : list Preset.t) :
  forall text written,
    presets_loop layer presets text = Some written ->
    forall preset data,
      In preset presets -> In data (Preset.settings preset) -> resolves layer data.
Proof.
  induction presets as [|preset presets IH]; intros text written Hloop p d Hp Hd;
    [destruct Hp|].
  cbn [presets_loop] in Hloop.
  destruct (preset_settings_loop layer (Preset.settings preset) _)
    as [entries|] eqn:Hentries; [|discriminate].
  destruct Hp as [<- | Hp].
  - now apply (preset_settings_loop_resolves _ _ _ _ Hentries).
  - now apply (IH _ _ Hloop p).
Qed.

Lemma WritePresets_part (layer : Layer.t) (text : string) :
  (forall preset data,
      In preset (Layer.presets layer) -> In data (Preset.settings preset) ->
      resolves layer data) ->
  WritePresets layer text = Some (text ++ presets_part layer).
Proof.
  intro Hall. unfold WritePresets, presets_part.
  destruct (Layer.presets layer) as [|preset presets].
  - now rewrite append_nil_r.
  - rewrite presets_loop_sections by exact Hall. now rewrite append_assoc.
Qed.

(** [ExportHtmlDoc] has a text to write exactly when the key of every data
    of every preset resolves: one key without meta, in any preset, and the
    rendering dereferences the missing meta. *)
Theorem document_defined_iff_keys_resolve (layer : Layer.t) :
  (exists text, ExportHtmlDoc layer = Some text)
  <-> (forall preset data,
         In preset (Layer.presets layer) -> In data (Preset.settings preset) ->
         resolves layer data).
Proof.
  unfold ExportHtmlDoc. split.
  - intros (text & Hdoc) preset data Hp Hd.
    destruct (WritePresets layer _) as [written|] eqn:Hwritten; [|discriminate].
    unfold WritePresets in Hwritten.
    destruct (Layer.presets layer) as [|first presets]; [destruct Hp|].
    now apply (presets_loop_resolves _ _ _ _ Hwritten preset).
  - intro Hall. rewrite WritePresets_part by exact Hall. eexists. reflexivity.
Qed.

(** When the keys resolve, the document is, in this order: the shell, the
    header, the properties, the visit line, the overview and the details of
    the settings (absent without setting), the presets (absent without
    preset) and the closing tags. *)
Theorem document_parts (layer : Layer.t) :
  (forall preset data,
      In preset (Layer.presets layer) -> In data (Preset.settings preset) ->
      resolves layer data) ->
  ExportHtmlDoc layer
  = Some (doc_shell
          ++ WriteHeader layer ""
          ++ WriteLayerProperties layer ""
          ++ WriteVisit layer ""
          ++ settings_part layer
          ++ presets_part layer
          ++ ("</body>" ++ nl) ++ ("</html>" ++ nl)).
Proof.
  intro Hall. unfold ExportHtmlDoc.
  rewrite WritePresets_part by exact Hall.
  rewrite WriteSettings_part, WriteVisit_frame, WriteLayerProperties_frame,
    WriteHeader_frame.
  change ("" ++ doc_shell) with doc_shell.
  now rewrite !append_assoc.
Qed.


(** ** Settings that are not emitted *)

Lemma WriteSettingsOverview_set_app (layer : Layer.t) (a b : SettingMetaSet) :
  forall text,
    WriteSettingsOverview layer (set_app a b) text
    = WriteSettingsOverview layer b (WriteSettingsOverview layer a text).
Proof.
  induction a as [|s a IH]; intro text; [reflexivity|].
  cbn [set_app WriteSettingsOverview]. apply IH.
Qed.

Lemma WriteSettingsDetails_set_app (layer : Layer.t) (a b : SettingMetaSet) :
  forall text,
    WriteSettingsDetails layer (set_app a b) text
    = WriteSettingsDetails layer b (WriteSettingsDetails layer a text).
Proof.
  induction a as [|s a IH]; intro text; [reflexivity|].
  cbn [set_app WriteSettingsDetails]. apply IH.
Qed.

(** A group, or a hidden setting, is invisible in the document: a set that
    begins with one is written, in the overview and in the details, as the
    set in which the children of that setting take its place. *)
Theorem unemitted_setting_is_spliced
  (layer : Layer.t) (s : SettingMeta) (settings : SettingMetaSet) (text : string) :
  Meta.type s = SETTING_GROUP \/ Meta.view s = SETTING_VIEW_HIDDEN ->
  WriteSettingsOverview layer (SetCons s settings) text
  = WriteSettingsOverview layer (set_app (Meta.children s) settings) text
  /\ WriteSettingsDetails layer (SetCons s settings) text
     = WriteSettingsDetails layer (set_app (Meta.children s) settings) text.
Proof.
  intro Hunseen.
  assert (Hemitted : emitted s = false).
  { unfold emitted. destruct Hunseen as [-> | ->]; cbn.
    - reflexivity.
    - apply andb_false_r. }
  rewrite WriteSettingsOverview_set_app, WriteSettingsDetails_set_app.
  cbn [WriteSettingsOverview WriteSettingsDetails]. rewrite Hemitted.
  split; reflexivity.
Qed.


(** ** Every emitted setting is in the text *)

Lemma detail_section_heading (layer : Layer.t) (s : SettingMeta) :
  starts_with (detail_heading s) (detail_section layer s) = true.
Proof.
  unfold detail_section, detail_head, detail_heading.
  destruct (StatusType_eqb (Meta.status s) STATUS_STABLE);
    apply starts_with_app_l, starts_with_app_l, starts_with_refl.
Qed.

(** The heading of every setting of the tree that is neither a group nor
    hidden is in the details, and it tells the status: the heading of a
    stable setting closes right after the label, the heading of any other
    setting has the token of the status in parentheses after the label. *)
Theorem emitted_setting_heading_carries_status
  (layer : Layer.t) (settings : SettingMetaSet) (s : SettingMeta) (text : string) :
  InTree s settings ->
  emitted s = true ->
  (Meta.status s = STATUS_STABLE ->
   contains
     ("<h3><a id=" ++ dq ++ Meta.key s ++ "-detailed" ++ dq ++ " href=" ++ dq ++ "#"
      ++ Meta.key s ++ dq ++ ">" ++ Meta.label s ++ "</a></h3>" ++ nl)
     (WriteSettingsDetails layer settings text) = true)
  /\ (Meta.status s <> STATUS_STABLE ->
      contains
        ("<h3><a id=" ++ dq ++ Meta.key s ++ "-detailed" ++ dq ++ " href=" ++ dq ++ "#"
         ++ Meta.key s ++ dq ++ ">" ++ Meta.label s ++ "</a> ("
         ++ GetToken (Meta.status s) ++ ")</h3>" ++ nl)
        (WriteSettingsDetails layer settings text) = true).
Proof.
  intros Htree Hemitted.
  assert (Hin : In s (filter emitted (flatten settings)))
    by (apply filter_In; split; [now apply InTree_In_flatten | exact Hemitted]).
  assert (Hheading : contains (detail_heading s)
                       (WriteSettingsDetails layer settings text) = true).
  { rewrite WriteSettingsDetails_sections.
    destruct (pieces_map_In (detail_section layer) _ _ Hin) as (b & a & ->).
    apply contains_app_r, contains_app_r, contains_app_l, contains_starts,
      detail_section_heading. }
  unfold detail_heading in Hheading.
  split; intro Hstatus.
  - now rewrite Hstatus in Hheading.
  - destruct (Meta.status s); try exact Hheading. now contradiction Hstatus.
Qed.

(** ** Links and their targets *)

Lemma overview_row_anchors (layer : Layer.t) (s : SettingMeta) :
  contains (overview_target s) (overview_row layer s) = true
  /\ contains (detailed_link s) (overview_row layer s) = true.
Proof.
  split.
  - apply (contains_at _ _ ("<tr>" ++ nl ++ tab ++ "<td><a ")
             ("href=" ++ dq ++ "#" ++ Meta.key s ++ "-detailed" ++ dq ++ ">"
              ++ Meta.label s ++ "</a></td>" ++ nl
              ++ pieces [tab ++ "<td>" ++ code_span (GetSettingTypeToken (Meta.type s))
                         ++ "</td>" ++ nl;
                         tab ++ "<td>" ++ code_span (GetProcessedDefaultValue s)
                         ++ "</td>" ++ nl;
                         tab ++ "<td>"
                         ++ code_span (GetLayerSettingPrefix (Layer.key layer)
                                       ++ Meta.key s)
                         ++ "</td>" ++ nl;
                         if (Meta.env s =? "")%string
                         then tab ++ "<td>N/A</td>" ++ nl
                         else tab ++ "<td>" ++ code_span (Meta.env s) ++ "</td>" ++ nl;
                         tab ++ "<td>" ++ BuildPlatformsHTML (Meta.platform_flags s)
                         ++ "</td>" ++ nl;
                         "</tr>" ++ nl])).
    unfold overview_row, overview_target, pieces. cbn [fold_right].
    rewrite !append_assoc, append_nil_r. reflexivity.
  - apply (contains_at _ _ ("<tr>" ++ nl ++ tab ++ "<td><a id=" ++ dq ++ Meta.key s ++ dq)
             (">" ++ Meta.label s ++ "</a></td>" ++ nl
              ++ pieces [tab ++ "<td>" ++ code_span (GetSettingTypeToken (Meta.type s))
                         ++ "</td>" ++ nl;
                         tab ++ "<td>" ++ code_span (GetProcessedDefaultValue s)
                         ++ "</td>" ++ nl;
                         tab ++ "<td>"
                         ++ code_span (GetLayerSettingPrefix (Layer.key layer)
                                       ++ Meta.key s)
                         ++ "</td>" ++ nl;
                         if (Meta.env s =? "")%string
                         then tab ++ "<td>N/A</td>" ++ nl
                         else tab ++ "<td>" ++ code_span (Meta.env s) ++ "</td>" ++ nl;
                         tab ++ "<td>" ++ BuildPlatformsHTML (Meta.platform_flags s)
                         ++ "</td>" ++ nl;
                         "</tr>" ++ nl])).
    unfold overview_row, detailed_link, pieces. cbn [fold_right].
    rewrite !append_assoc, append_nil_r. reflexivity.
Qed.

Lemma detail_heading_anchors (s : SettingMeta) :
  contains (detailed_target s) (detail_heading s) = true
  /\ contains (overview_link s) (detail_heading s) = true.
Proof.
  unfold detail_heading.
  destruct (StatusType_eqb (Meta.status s) STATUS_STABLE); split.
  - apply (contains_at _ _ "<h3><a "
             (" href=" ++ dq ++ "#" ++ Meta.key s ++ dq ++ ">" ++ Meta.label s
              ++ "</a></h3>" ++ nl)).
    unfold detailed_target. rewrite !append_assoc. reflexivity.
  - apply (contains_at _ _ ("<h3><a id=" ++ dq ++ Meta.key s ++ "-detailed" ++ dq ++ " ")
             (">" ++ Meta.label s ++ "</a></h3>" ++ nl)).
    unfold overview_link. rewrite !append_assoc. reflexivity.
  - apply (contains_at _ _ "<h3><a "
             (" href=" ++ dq ++ "#" ++ Meta.key s ++ dq ++ ">" ++ Meta.label s
              ++ "</a> (" ++ GetToken (Meta.status s) ++ ")</h3>" ++ nl)).
    unfold detailed_target. rewrite !append_assoc. reflexivity.
  - apply (contains_at _ _ ("<h3><a id=" ++ dq ++ Meta.key s ++ "-detailed" ++ dq ++ " ")
             (">" ++ Meta.label s ++ "</a> (" ++ GetToken (Meta.status s)
              ++ ")</h3>" ++ nl)).
    unfold overview_link. rewrite !append_assoc. reflexivity.
Qed.

Lemma preset_value_line_link (meta : SettingMeta) (value : string) :
  contains (detailed_link meta) (preset_value_line meta value) = true.
Proof.
  apply (contains_at _ _ (tab ++ "<li><a ")
           (">" ++ Meta.label meta ++ "</a>: " ++ code_span value ++ "</li>" ++ nl)).
  unfold preset_value_line, detailed_link. rewrite !append_assoc. reflexivity.
Qed.

(** The links between the overview, the details and the presets have
    their targets: for a setting of the tree that is neither a group nor
    hidden, the overview holds the anchor of the row and the link to the
    detailed section, the details hold the anchor of the section and the
    link back to the row, and the list item of a preset value of that
    setting holds the link to the detailed section. *)
Theorem links_of_emitted_setting_have_targets
  (layer : Layer.t) (settings : SettingMetaSet) (s : SettingMeta) (text value : string) :
  InTree s settings ->
  emitted s = true ->
  (contains (overview_target s) (WriteSettingsOverview layer settings text) = true
   /\ contains (detailed_link s) (WriteSettingsOverview layer settings text) = true)
  /\ (contains (detailed_target s) (WriteSettingsDetails layer settings text) = true
      /\ contains (overview_link s) (WriteSettingsDetails layer settings text) = true)
  /\ contains (detailed_link s) (preset_value_line s value) = true.
Proof.
  intros Htree Hemitted.
  assert (Hin : In s (filter emitted (flatten settings)))
    by (apply filter_In; split; [now apply InTree_In_flatten | exact Hemitted]).
  assert (Hrow : contains (overview_row layer s)
                   (WriteSettingsOverview layer settings text) = true).
  { rewrite WriteSettingsOverview_rows.
    destruct (pieces_map_In (overview_row layer) _ _ Hin) as (b & a & ->).
    rewrite <- append_assoc. apply contains_between. }
  assert (Hsection : contains (detail_heading s)
                       (WriteSettingsDetails layer settings text) = true).
  { rewrite WriteSettingsDetails_sections.
    destruct (pieces_map_In (detail_section layer) _ _ Hin) as (b & a & ->).
    apply contains_app_r, contains_app_r, contains_app_l, contains_starts,
      detail_section_heading. }
  destruct (overview_row_anchors layer s) as [Hrow_target Hrow_link].
  destruct (detail_heading_anchors s) as [Hhead_target Hhead_link].
  repeat split; eauto using contains_trans, preset_value_line_link.
Qed.

End DocumentFacts.

(** * The traversals, the enum table and the presets, on the text *)

Lemma starts_with_same_prefix (before a b : string) :
  starts_with (before ++ a) (before ++ b) = starts_with a b.
Proof.
  induction before as [|c before IH]; [reflexivity|].
  cbn. now rewrite Ascii.eqb_refl, IH.
Qed.

(** ** The lookup by key *)

Lemma find_by_key_sound (key : string) (settings : SettingMetaSet) :
  forall meta,
    find_by_key settings key = Some meta ->
    InTree meta settings /\ Meta.key meta = key.
Proof.
  induction settings using SettingMetaSet_meta_ind
    with (P := fun parent =>
                 forall meta,
                   find_by_key (Meta.children parent) key = Some meta ->
                   InTree meta (Meta.children parent) /\ Meta.key meta = key).
  - exact IHsettings.
  - discriminate.
  - intros meta Hfound. cbn [find_by_key] in Hfound.
    destruct (Meta.key first =? key)%string eqn:Hkey.
    + injection Hfound as <-. apply String.eqb_eq in Hkey.
      split; [apply InTree_first | exact Hkey].
    + destruct (find_by_key (Meta.children first) key) as [found|] eqn:Hchild.
      * injection Hfound as <-. destruct (IHsettings found eq_refl) as [Hin Hk].
        split; [now apply InTree_child | exact Hk].
      * destruct (IHsettings0 meta Hfound) as [Hin Hk].
        split; [now apply InTree_rest | exact Hk].
Qed.

Lemma find_by_key_complete (key : string) (s : SettingMeta) (settings : SettingMetaSet) :
  InTree s settings -> Meta.key s = key ->
  exists meta, find_by_key settings key = Some meta.
Proof.
  intros Htree Hkey.
  induction Htree as [settings' | parent settings' _ IH | other settings' _ IH];
    cbn [find_by_key].
  - apply String.eqb_eq in Hkey. rewrite Hkey. now exists s.
  - destruct (Meta.key parent =? key)%string; [now exists parent|].
    destruct IH as (meta & ->). now exists meta.
  - destruct (Meta.key other =? key)%string; [now exists other|].
    destruct (find_by_key (Meta.children other) key) as [found|];
      [now exists found | exact IH].
Qed.

Section TextFacts.

Context `{Collaborators}.

Lemma overview_row_first_cell (layer : Layer.t) (s : SettingMeta) :
  contains (tab ++ "<td><a id=" ++ dq ++ Meta.key s ++ dq ++ "href=" ++ dq ++ "#"
            ++ Meta.key s ++ "-detailed" ++ dq ++ ">" ++ Meta.label s
            ++ "</a></td>" ++ nl)
    (overview_row layer s) = true.
Proof.
  unfold overview_row.
  apply contains_app_r, contains_app_r, contains_app_l, contains_starts,
    starts_with_refl.
Qed.

Lemma detail_heading_stable (s : SettingMeta) :
  Meta.status s = STATUS_STABLE ->
  detail_heading s
  = "<h3><a id=" ++ dq ++ Meta.key s ++ "-detailed" ++ dq ++ " href=" ++ dq ++ "#"
    ++ Meta.key s ++ dq ++ ">" ++ Meta.label s ++ "</a></h3>" ++ nl.
Proof. intro Hstable. unfold detail_heading. now rewrite Hstable. Qed.

Lemma detail_heading_other (s : SettingMeta) :
  Meta.status s <> STATUS_STABLE ->
  detail_heading s
  = "<h3><a id=" ++ dq ++ Meta.key s ++ "-detailed" ++ dq ++ " href=" ++ dq ++ "#"
    ++ Meta.key s ++ dq ++ ">" ++ Meta.label s ++ "</a> ("
    ++ GetToken (Meta.status s) ++ ")</h3>" ++ nl.
Proof.
  intro Hother. unfold detail_heading.
  destruct (Meta.status s); try reflexivity. now contradiction Hother.
Qed.

Lemma detail_heading_opening (s : SettingMeta) :
  starts_with
    ("<h3><a id=" ++ dq ++ Meta.key s ++ "-detailed" ++ dq ++ " href=" ++ dq ++ "#"
     ++ Meta.key s ++ dq ++ ">" ++ Meta.label s ++ "</a>")
    (detail_heading s) = true.
Proof.
  unfold detail_heading.
  destruct (StatusType_eqb (Meta.status s) STATUS_STABLE);
    rewrite !starts_with_same_prefix; reflexivity.
Qed.

Lemma row_in_overview (layer : Layer.t) (settings : SettingMetaSet) (s : SettingMeta)
  (text : string) :
  InTree s settings -> emitted s = true ->
  contains (overview_row layer s) (WriteSettingsOverview layer settings text) = true.
Proof.
  intros Htree Hemitted.
  assert (Hin : In s (filter emitted (flatten settings)))
    by (apply filter_In; split; [now apply InTree_In_flatten | exact Hemitted]).
  rewrite WriteSettingsOverview_rows.
  destruct (pieces_map_In (overview_row layer) _ _ Hin) as (b & a & ->).
  rewrite <- append_assoc. apply contains_between.
Qed.

Lemma section_in_details (layer : Layer.t) (settings : SettingMetaSet) (s : SettingMeta)
  (text : string) :
  InTree s settings -> emitted s = true ->
  contains (detail_section layer s) (WriteSettingsDetails layer settings text) = true.
Proof.
  intros Htree Hemitted.
  assert (Hin : In s (filter emitted (flatten settings)))
    by (apply filter_In; split; [now apply InTree_In_flatten | exact Hemitted]).
  rewrite WriteSettingsDetails_sections.
  destruct (pieces_map_In (detail_section layer) _ _ Hin) as (b & a & ->).
  rewrite <- append_assoc. apply contains_between.
Qed.

Lemma heading_in_details (layer : Layer.t) (settings : SettingMetaSet) (s : SettingMeta)
  (text : string) :
  InTree s settings -> emitted s = true ->
  contains (detail_heading s) (WriteSettingsDetails layer settings text) = true.
Proof.
  intros Htree Hemitted.
  apply (contains_trans _ (detail_section layer s));
    [|now apply section_in_details].
  apply contains_starts, detail_section_heading.
Qed.

(** ** C4 *)

(** C4: the overview is the rows, and the detailed part the sections, of
    the settings of the tree that are neither a group nor hidden, in
    document order; these are all such settings, at any depth, whatever
    their ancestors are; and each of them is there in the text: the
    overview holds the cell that links its label to its detailed section,
    the details hold the opening of its heading. *)
Theorem traversals_emit_visible_settings
  (layer : Layer.t) (settings : SettingMetaSet) (text : string) :
  WriteSettingsOverview layer settings text
  = text ++ pieces (map (overview_row layer) (filter emitted (flatten settings)))
  /\ WriteSettingsDetails layer settings text
     = text ++ pieces (map (detail_section layer) (filter emitted (flatten settings)))
  /\ (forall s,
        In s (filter emitted (flatten settings))
        <-> InTree s settings
            /\ Meta.type s <> SETTING_GROUP /\ Meta.view s <> SETTING_VIEW_HIDDEN)
  /\ (forall s,
        InTree s settings ->
        Meta.type s <> SETTING_GROUP ->
        Meta.view s <> SETTING_VIEW_HIDDEN ->
        contains
          (tab ++ "<td><a id=" ++ dq ++ Meta.key s ++ dq ++ "href=" ++ dq ++ "#"
           ++ Meta.key s ++ "-detailed" ++ dq ++ ">" ++ Meta.label s
           ++ "</a></td>" ++ nl)
          (WriteSettingsOverview layer settings text) = true
        /\ contains
             ("<h3><a id=" ++ dq ++ Meta.key s ++ "-detailed" ++ dq ++ " href=" ++ dq
              ++ "#" ++ Meta.key s ++ dq ++ ">" ++ Meta.label s ++ "</a>")
             (WriteSettingsDetails layer settings text) = true).
Proof.
  split; [apply WriteSettingsOverview_rows|].
  split; [apply WriteSettingsDetails_sections|].
  split.
  - intro s. rewrite filter_In, emitted_spec.
    split; intros [Hin Hshown]; split; auto using In_flatten_InTree, InTree_In_flatten.
  - intros s Htree Htype Hview.
    assert (Hemitted : emitted s = true) by (apply emitted_spec; now split).
    split.
    + apply (contains_trans _ (overview_row layer s));
        [apply overview_row_first_cell | now apply row_in_overview].
    + apply (contains_trans _ (detail_heading s));
        [apply contains_starts, detail_heading_opening | now apply heading_in_details].
Qed.

(** ** C8 *)



(** ** C9 *)

Lemma keys_in_tree_resolve (layer : Layer.t) (data : Data.t) :
  (forall settings key, FindSettingMeta settings key = find_by_key settings key) ->
  (exists s, InTree s (Layer.settings layer) /\ Meta.key s = Data.key data) ->
  (forall value, Data.value data = DataFloat value ->
   forall s, InTree s (Layer.settings layer) -> Meta.key s = Data.key data ->
             Meta.type s = SETTING_FLOAT) ->
  resolves layer data
  /\ exists meta,
       FindSettingMeta (Layer.settings layer) (Data.key data) = Some meta
       /\ InTree meta (Layer.settings layer) /\ Meta.key meta = Data.key data.
Proof.
  intros Hlookup (s & Htree & Hkey) Hfloat.
  destruct (find_by_key_complete _ _ _ Htree Hkey) as (meta & Hfound).
  destruct (find_by_key_sound _ _ _ Hfound) as [Hin Hk].
  rewrite <- Hlookup in Hfound.
  split; [split|]; [now exists meta | | now exists meta].
  intros value Hvalue. unfold FindSettingMetaFloat. rewrite Hfound.
  pose proof (Hfloat value Hvalue meta Hin Hk) as Htype.
  unfold Meta.type in Htype.
  destruct (Meta.value meta) as [| | | | | | |meta_float| | | | |];
    try discriminate.
  now exists meta_float.
Qed.

(** C9, as the code has it, [FindSettingMeta] being the lookup by key in
    the tree: when the key of every data of every preset is the key of a
    setting of the tree, and the settings with the key of a FLOAT data are
    float metas, no lookup of the preset part is missing: the part is
    written, it is the heading followed by the section of each preset, and
    the list item of every data is made of the key and the label of the
    meta found for its key, which is a setting of the tree with that key,
    in the link to the detailed section, and of the value that
    [GetProcessedValue] returns for it. *)
Theorem presets_rendered_when_keys_resolve (layer : Layer.t) (text : string) :
  (forall settings key, FindSettingMeta settings key = find_by_key settings key) ->
  (forall preset data,
      In preset (Layer.presets layer) -> In data (Preset.settings preset) ->
      exists s, InTree s (Layer.settings layer) /\ Meta.key s = Data.key data) ->
  (forall preset data,
      In preset (Layer.presets layer) -> In data (Preset.settings preset) ->
      forall value, Data.value data = DataFloat value ->
      forall s, InTree s (Layer.settings layer) -> Meta.key s = Data.key data ->
                Meta.type s = SETTING_FLOAT) ->
  WritePresets layer text
  = Some (text
          ++ match Layer.presets layer with
             | [] => ""
             | _ :: _ =>
                 ("<h2><a href=" ++ dq ++ "#top" ++ dq ++ " id=" ++ dq ++ "presets" ++ dq
                  ++ ">Layer Presets</a></h2>" ++ nl)
                 ++ pieces
                      (map (fun preset =>
                              ("<h3>" ++ Preset.label preset ++ "</h3>" ++ nl)
                              ++ ("<p>" ++ Preset.description preset ++ "</p>")
                              ++ ("<h4>Preset Setting Values:</h4>" ++ nl)
                              ++ ("<ul>" ++ nl)
                              ++ pieces (map (preset_entry layer)
                                           (Preset.settings preset))
                              ++ ("</ul>" ++ nl))
                         (Layer.presets layer))
             end)
  /\ (forall preset data,
        In preset (Layer.presets layer) -> In data (Preset.settings preset) ->
        exists meta value,
          FindSettingMeta (Layer.settings layer) (Data.key data) = Some meta
          /\ InTree meta (Layer.settings layer)
          /\ Meta.key meta = Data.key data
          /\ GetProcessedValue layer data = Some value
          /\ preset_entry layer data
             = tab ++ "<li><a href=" ++ dq ++ "#" ++ Meta.key meta ++ "-detailed" ++ dq
               ++ ">" ++ Meta.label meta ++ "</a>: <span class=" ++ dq ++ "code" ++ dq
               ++ ">" ++ value ++ "</span></li>" ++ nl).
Proof.
  intros Hlookup Hkeys Hfloat.
  assert (Hall : forall preset data,
             In preset (Layer.presets layer) -> In data (Preset.settings preset) ->
             resolves layer data).
  { intros preset data Hp Hd.
    apply (keys_in_tree_resolve layer data Hlookup (Hkeys preset data Hp Hd)
             (Hfloat preset data Hp Hd)). }
  split.
  - unfold WritePresets.
    destruct (Layer.presets layer) as [|preset presets] eqn:Hpresets.
    + now rewrite append_nil_r.
    + rewrite presets_loop_sections by exact Hall.
      now rewrite append_assoc.
  - intros preset data Hp Hd.
    destruct (keys_in_tree_resolve layer data Hlookup (Hkeys preset data Hp Hd)
                (Hfloat preset data Hp Hd))
      as (Hresolves & meta & Hfound & Hin & Hk).
    destruct (resolves_formats layer data Hresolves)
      as (meta' & value & Hfound' & Hvalue & Hentry).
    rewrite Hfound in Hfound'. injection Hfound' as <-.
    exists meta, value. repeat split; try assumption.
    rewrite Hentry. unfold preset_value_line, code_span.
    now rewrite !append_assoc.
Qed.

End TextFacts.

(** * The statements at concrete layers *)

Lemma list_first_disabled_leading_separator_witness :
  @GetProcessedDefaultValue sample
     (leaf "names" "Names" (MetaList first_disabled) SETTING_VIEW_STANDARD) = ",b"
  /\ @GetProcessedValue sample sample_layer (Data.Make "names" (DataList first_disabled))
     = Some ",b"
  /\ split_on "," ",b" = [""; "b"]
  /\ List.length (filter Entry.enabled first_disabled) = 1.
Proof.
  destruct (@list_first_disabled_leading_separator sample
              (Entry.Make "a" 0 false) [Entry.Make "b" 0 true]
              (leaf "names" "Names" (MetaList first_disabled) SETTING_VIEW_STANDARD)
              sample_layer (Data.Make "names" (DataList first_disabled)))
    as [Hmeta Hdata]; try reflexivity; [discriminate|].
  repeat split; assumption.
Defined.

Lemma float_invalid_value_formats_default_witness :
  @GetProcessedValue sample sample_layer (Data.Make "ratio" (DataFloat 2))
  = Some (@GetProcessedDefaultValue sample ratio_meta).
Proof.
  apply (@float_invalid_value_formats_default sample sample_layer
           (Data.Make "ratio" (DataFloat 2)) 2%float ratio_meta
           (MetaFloat.Make 0.5 0 1 2 0)); reflexivity.
Defined.

Lemma doc_url_by_api_version_witness :
  GetLayerSettingsDocURL recent_layer
  = "https://github.com/LunarG/VulkanTools/tree/sdk-1.8.0.0/vkconfig#vulkan-layers-settings"
  /\ GetLayerSettingsDocURL sample_layer
     = "https://github.com/LunarG/VulkanTools/tree/master/vkconfig#vulkan-layers-settings".
Proof.
  split.
  - apply (proj1 (doc_url_by_api_version recent_layer)). reflexivity.
  - apply (proj2 (doc_url_by_api_version sample_layer)). reflexivity.
Defined.

Lemma traversals_emit_visible_settings_witness :
  (contains
     (tab ++ "<td><a id=" ++ dq ++ "enable" ++ dq ++ "href=" ++ dq
      ++ "#enable-detailed" ++ dq ++ ">Enable</a></td>" ++ nl)
     (@WriteSettingsOverview sample sample_layer sample_settings "") = true
   /\ contains
        ("<h3><a id=" ++ dq ++ "enable-detailed" ++ dq ++ " href=" ++ dq ++ "#enable"
         ++ dq ++ ">Enable</a>")
        (@WriteSettingsDetails sample sample_layer sample_settings "") = true)
  /\ ~ In group_meta (filter emitted (flatten sample_settings))
  /\ ~ In secret_meta (filter emitted (flatten sample_settings))
  /\ contains ("id=" ++ dq ++ "group")
       (@WriteSettingsOverview sample sample_layer sample_settings "") = false
  /\ contains ("id=" ++ dq ++ "secret")
       (@WriteSettingsDetails sample sample_layer sample_settings "") = false.
Proof.
  destruct (@traversals_emit_visible_settings sample sample_layer sample_settings "")
    as (_ & _ & Hshown & Hthere).
  split; [|split; [|split; [|split]]].
  - apply (Hthere enable_meta).
    + apply InTree_child. apply InTree_first.
    + discriminate.
    + discriminate.
  - intro Hin. apply Hshown in Hin. destruct Hin as (_ & Hgroup & _).
    now apply Hgroup.
  - intro Hin. apply Hshown in Hin. destruct Hin as (_ & _ & Hhidden).
    now apply Hhidden.
  - vm_compute. reflexivity.
  - vm_compute. reflexivity.
Defined.



Lemma presets_rendered_when_keys_resolve_witness :
  exists written, @WritePresets sample sample_layer "" = Some written.
Proof.
  eexists.
  refine (proj1 (@presets_rendered_when_keys_resolve sample sample_layer ""
                   (fun settings key => eq_refl) _ _)).
  - intros preset data [<- | []] [<- | [<- | []]].
    + exists enable_meta. split; [|reflexivity].
      apply InTree_child. apply InTree_first.
    + exists ratio_meta. split; [|reflexivity].
      apply InTree_rest, InTree_child. apply InTree_first.
  - intros preset data [<- | []] [<- | [<- | []]] value Hvalue s Htree Hkey;
      [discriminate|].
    apply InTree_In_flatten in Htree. cbn in Htree.
    repeat (destruct Htree as [<- | Htree]; [try discriminate; reflexivity|]).
    destruct Htree.
Defined.

(** The key of a FLOAT data is the key of a BOOL setting of the tree: the
    lookup finds the setting, and the preset part is not written. *)
Lemma float_data_on_bool_setting :
  InTree enable_meta (SetCons enable_meta SetNil)
  /\ Meta.key enable_meta = "enable"
  /\ @FindSettingMeta sample (SetCons enable_meta SetNil) "enable" = Some enable_meta
  /\ @WritePresets sample
       (make_layer (SetCons enable_meta SetNil)
          [Preset.Make "Odd" "" [Data.Make "enable" (DataFloat 2)]]) "" = None.
Proof. repeat split. apply InTree_first. Qed.

Lemma settings_count_and_overview_rows_witness :
  List.length (top_level (SetCons parent_meta SetNil))
  < List.length (@overview_rows sample (make_layer (SetCons parent_meta SetNil) [])
                   (SetCons parent_meta SetNil)).
Proof.
  apply (proj2 (proj2 (proj2 (@settings_count_and_overview_rows sample
                                (make_layer (SetCons parent_meta SetNil) []))))).
  - intros s [<- | []]. reflexivity.
  - exists parent_meta, ratio_meta. repeat split.
    + now left.
    + apply InTree_first.
Defined.



(** One group at the root, with a shown and a hidden child: the count is 1
    and the overview has one row. *)
Lemma count_not_below_rows_under_group :
  Meta.children group_meta = SetCons enable_meta (SetCons secret_meta SetNil)
  /\ Size (Layer.settings group_layer) = 1
  /\ @WriteSettingsOverview sample group_layer (Layer.settings group_layer) ""
     = @overview_row sample group_layer enable_meta
  /\ List.length (@overview_rows sample group_layer (Layer.settings group_layer)) = 1
  /\ ~ Size (Layer.settings group_layer)
       < List.length (@overview_rows sample group_layer (Layer.settings group_layer)).
Proof. repeat split. simpl. lia. Qed.

Lemma sections_absent_without_settings_and_presets_witness :
  exists text,
    @ExportHtmlDoc sample recent_layer = Some text
    /\ contains "Layer Settings Overview" text = false
    /\ contains "Layer Settings Details" text = false
    /\ contains "Layer Presets" text = false.
Proof.
  destruct (@sections_absent_without_settings_and_presets sample recent_layer
              eq_refl eq_refl) as (text & Hdoc & _ & Habsent).
  assert (Hfields : forall title, In title section_titles ->
            forall field, In field (@layer_texts sample recent_layer) ->
                          contains title field = false).
  { intros title Htitle field Hfield.
    unfold section_titles in Htitle. cbn [In] in Htitle.
    vm_compute in Hfield.
    destruct Htitle as [<- | [<- | [<- | []]]];
      decompose [or] Hfield; subst; try reflexivity; contradiction. }
  exists text. split; [exact Hdoc|].
  repeat split; apply Habsent; try apply Hfields; simpl; auto.
Defined.

(** With settings and presets the three titles are there. *)
Lemma sections_present_with_settings_and_presets :
  exists text,
    @ExportHtmlDoc sample sample_layer = Some text
    /\ forallb (fun title => contains title text) section_titles = true.
Proof. eexists. split; [reflexivity|]. vm_compute. reflexivity. Qed.

(** * The further statements at concrete values *)

Lemma flags_value_comma_joined_witness :
  @GetProcessedDefaultValue sample flags_meta = "core,sync"
  /\ @GetProcessedValue sample sample_layer
       (Data.Make "checks" (DataFlags ["core"; "sync"])) = Some "core,sync".
Proof.
  apply (@flags_value_comma_joined sample flags_meta sample_layer
           (Data.Make "checks" (DataFlags ["core"; "sync"]))
           (Meta.enum_values flags_meta) ["core"; "sync"]); reflexivity.
Defined.

Lemma flags_fields_are_tokens_witness :
  split_on "," (@GetProcessedDefaultValue sample flags_meta) = ["core"; "sync"].
Proof.
  apply (@flags_fields_are_tokens sample flags_meta (Meta.enum_values flags_meta)).
  - reflexivity.
  - discriminate.
  - intros token [<- | [<- | []]]; reflexivity.
Defined.

Lemma list_first_enabled_comma_joined_witness :
  @GetProcessedDefaultValue sample
     (leaf "names" "Names" (MetaList first_enabled) SETTING_VIEW_STANDARD) = "a,*"
  /\ @GetProcessedValue sample sample_layer (Data.Make "names" (DataList first_enabled))
     = Some "a,*".
Proof.
  apply (@list_first_enabled_comma_joined sample
           (Entry.Make "a" 0 true) [Entry.Make "b" 0 false; Entry.Make "" 42 true]
           (leaf "names" "Names" (MetaList first_enabled) SETTING_VIEW_STANDARD)
           sample_layer (Data.Make "names" (DataList first_enabled)));
    reflexivity.
Defined.

Lemma list_without_enabled_entry_empty_witness :
  @GetProcessedDefaultValue sample
     (leaf "names" "Names" (MetaList [Entry.Make "a" 0 false]) SETTING_VIEW_STANDARD)
  = ""
  /\ @GetProcessedValue sample sample_layer
       (Data.Make "names" (DataList [Entry.Make "a" 0 false])) = Some "".
Proof.
  apply (@list_without_enabled_entry_empty sample [Entry.Make "a" 0 false]);
    reflexivity.
Defined.

Lemma list_fields_are_enabled_entries_witness :
  split_on ","
    (@GetProcessedDefaultValue sample
       (leaf "names" "Names" (MetaList first_enabled) SETTING_VIEW_STANDARD))
  = ["a"; "*"].
Proof.
  refine (proj1 (@list_fields_are_enabled_entries sample
                   (Entry.Make "a" 0 true)
                   [Entry.Make "b" 0 false; Entry.Make "" 42 true]
                   (leaf "names" "Names" (MetaList first_enabled) SETTING_VIEW_STANDARD)
                   eq_refl _ eq_refl)).
  intros e' [<- | [<- | [<- | []]]] He'; try reflexivity; discriminate.
Defined.

Lemma default_data_formats_as_default_witness :
  @GetProcessedValue sample sample_layer (Data.Make "ratio" (DataFloat 0.5))
  = Some "0.50".
Proof.
  apply (@default_data_formats_as_default sample sample_layer
           (Data.Make "ratio" (DataFloat 0.5)) ratio_meta); reflexivity.
Defined.

Lemma formatted_value_defined_witness :
  (exists text,
      @GetProcessedValue sample sample_layer (Data.Make "enable" (DataBool true))
      = Some text)
  /\ @GetProcessedValue sample bare_layer (Data.Make "enable" (DataBool true))
     = @GetProcessedValue sample sample_layer (Data.Make "enable" (DataBool true))
  /\ @GetProcessedValue sample bare_layer (Data.Make "ratio" (DataFloat 2)) = None.
Proof.
  split; [|split].
  - apply (proj1 (@formatted_value_defined sample sample_layer
                    (Data.Make "enable" (DataBool true)))).
    intros value Hvalue. discriminate.
  - apply (proj2 (@formatted_value_defined sample sample_layer
                    (Data.Make "enable" (DataBool true)))).
    discriminate.
  - destruct (@GetProcessedValue sample bare_layer (Data.Make "ratio" (DataFloat 2)))
      as [text|] eqn:Hvalue; [|reflexivity].
    destruct (proj1 (proj1 (@formatted_value_defined sample bare_layer
                              (Data.Make "ratio" (DataFloat 2))))
                (ex_intro _ text Hvalue) 2%float eq_refl) as (meta_float & Hfound).
    discriminate.
Defined.

Lemma document_defined_iff_keys_resolve_witness :
  (exists text, @ExportHtmlDoc sample sample_layer = Some text)
  /\ @ExportHtmlDoc sample (make_layer sample_settings [sample_preset; stray_preset])
     = None.
Proof.
  split.
  - apply (@document_defined_iff_keys_resolve sample sample_layer).
    intros preset data [<- | []] [<- | [<- | []]]; split.
    + now exists enable_meta.
    + discriminate.
    + now exists ratio_meta.
    + intros value _. now exists (MetaFloat.Make 0.5 0 1 2 0).
  - destruct (@ExportHtmlDoc sample
                (make_layer sample_settings [sample_preset; stray_preset]))
      as [text|] eqn:Hdoc; [|reflexivity].
    destruct (proj1 (@document_defined_iff_keys_resolve sample
                       (make_layer sample_settings [sample_preset; stray_preset]))
                (ex_intro _ text Hdoc) stray_preset (Data.Make "missing" (DataInt 1)))
      as [(meta & Hfound) _].
    + right. now left.
    + right. now left.
    + discriminate.
Defined.

Lemma document_parts_witness :
  @ExportHtmlDoc sample sample_layer
  = Some (doc_shell
          ++ @WriteHeader sample sample_layer ""
          ++ @WriteLayerProperties sample sample_layer ""
          ++ @WriteVisit sample_layer ""
          ++ @settings_part sample sample_layer
          ++ @presets_part sample sample_layer
          ++ ("</body>" ++ nl) ++ ("</html>" ++ nl)).
Proof.
  apply (@document_parts sample sample_layer).
  intros preset data [<- | []] [<- | [<- | []]]; split.
  - now exists enable_meta.
  - discriminate.
  - now exists ratio_meta.
  - intros value _. now exists (MetaFloat.Make 0.5 0 1 2 0).
Defined.


Lemma unemitted_setting_is_spliced_witness :
  @WriteSettingsOverview sample sample_layer (SetCons group_meta SetNil) ""
  = @WriteSettingsOverview sample sample_layer
      (SetCons enable_meta (SetCons secret_meta SetNil)) "".
Proof.
  apply (proj1 (@unemitted_setting_is_spliced sample sample_layer group_meta SetNil ""
                  (or_introl eq_refl))).
Defined.


Lemma emitted_setting_heading_carries_status_witness :
  contains
    ("<h3><a id=" ++ dq ++ "trace-detailed" ++ dq ++ " href=" ++ dq ++ "#trace" ++ dq
     ++ ">Trace</a> (BETA)</h3>" ++ nl)
    (@WriteSettingsDetails sample sample_layer
       (SetCons group_meta (SetCons beta_meta SetNil)) "") = true
  /\ contains
       ("<h3><a id=" ++ dq ++ "enable-detailed" ++ dq ++ " href=" ++ dq ++ "#enable"
        ++ dq ++ ">Enable</a></h3>" ++ nl)
       (@WriteSettingsDetails sample sample_layer
          (SetCons group_meta (SetCons beta_meta SetNil)) "") = true.
Proof.
  destruct (@emitted_setting_heading_carries_status sample sample_layer
              (SetCons group_meta (SetCons beta_meta SetNil)) beta_meta "")
    as [_ Hbeta].
  - apply InTree_rest, InTree_first.
  - reflexivity.
  - destruct (@emitted_setting_heading_carries_status sample sample_layer
                (SetCons group_meta (SetCons beta_meta SetNil)) enable_meta "")
      as [Hstable _].
    + apply InTree_child. apply InTree_first.
    + reflexivity.
    + split; [apply Hbeta; discriminate | apply Hstable; reflexivity].
Defined.

Lemma links_of_emitted_setting_have_targets_witness :
  contains (detailed_link enable_meta)
    (@WriteSettingsOverview sample sample_layer sample_settings "") = true
  /\ contains (detailed_target enable_meta)
       (@WriteSettingsDetails sample sample_layer sample_settings "") = true.
Proof.
  destruct (@links_of_emitted_setting_have_targets sample sample_layer
              sample_settings enable_meta "" "TRUE")
    as ((_ & Hlink) & (Htarget & _) & _).
  - apply InTree_child. apply InTree_first.
  - reflexivity.
  - split; assumption.
Defined.
